(** * HTS AI Agent: the demo script and the Streamlit front end

    A shallow embedding of [demo.py] and [frontend/app.py].

    Both files are glue around collaborators that live in other modules
    ([database], [rag_system], [tariff_calculator], [agent],
    [agent_real_llm]).  Those collaborators are taken as parameters: every
    call into them is described by the result the call produces, a value or
    a raised exception.  The glue itself (the [try]/[except] blocks, the
    loops, the truthiness tests, the order of the log lines and of the
    page elements) is written out as the source has it.

    Python text is modelled by [string]; one character of the model stands
    for one character of the Python [str] wherever a length is taken. *)

From stdpp Require Import base strings list gmap pretty.
From Stdlib Require Import Ascii QArith.

Close Scope Q_scope.
Local Open Scope string_scope.
Local Open Scope list_scope.

(** ** Python runtime fragment *)

Module Py.

(** An instance of [Exception].  [exn_import_error] tells whether the
    instance is an [ImportError] (or a subclass of it), which is all the
    source ever asks about the class; [exn_str] is [str(e)]. *)
Record exn := Exn { exn_import_error : bool; exn_str : string }.

(** What a call into a collaborator produces when it returns or raises an
    instance of [Exception]; a call that raises outside [Exception] is
    [exits] below. *)
Inductive call_result (A : Type) :=
| Ok (a : A)
| Err (e : exn).
Arguments Ok {A} a.
Arguments Err {A} e.

(** How a block of the program ends: it returns, it raises an
    [Exception], or the script is stopped by the framework ([st.stop()],
    a control signal that [except Exception] does not catch). *)
Inductive outcome (A : Type) :=
| Return (a : A)
| Raise (e : exn)
| Stopped.
Arguments Return {A} a.
Arguments Raise {A} e.
Arguments Stopped {A}.

Section Monad.
Context {S : Type}.

(** A block running over a state [S] (the console, or the page). *)
Definition M (A : Type) : Type := S -> outcome A * S.

Definition ret {A} (a : A) : M A := fun s => (Return a, s).

Definition bind {A B} (c : M A) (k : A -> M B) : M B :=
  fun s =>
    match c s with
    | (Return a, s') => k a s'
    | (Raise e, s') => (Raise e, s')
    | (Stopped, s') => (Stopped, s')
    end.

Definition raise {A} (e : exn) : M A := fun s => (Raise e, s).

Definition stop {A} : M A := fun s => (Stopped, s).

(** A call that raises outside [Exception] ([SystemExit],
    [KeyboardInterrupt], [GeneratorExit]).  No [except] clause of the
    source names such a class, so the block ends as it does on
    [st.stop()]: nothing in it catches the signal. *)
Definition exits {A} : M A := stop.

(** A call into a collaborator: its result becomes the block's. *)
Definition call {A} (r : call_result A) : M A :=
  match r with
  | Ok a => ret a
  | Err e => raise e
  end.

Definition modify (f : S -> S) : M unit := fun s => (Return tt, f s).

Definition get : M S := fun s => (Return s, s).

(** [try: body / except <class> as e: handler e], where [catches] says
    whether the raised instance belongs to the class. *)
Definition try_except_when {A} (catches : exn -> bool)
    (body : M A) (handler : exn -> M A) : M A :=
  fun s =>
    match body s with
    | (Raise e, s') =>
        if catches e then handler e s' else (Raise e, s')
    | r => r
    end.

(** [except Exception as e] *)
Definition try_except {A} (body : M A) (handler : exn -> M A) : M A :=
  try_except_when (fun _ => true) body handler.

(** [except ImportError] *)
Definition try_except_ImportError {A} (body : M A) (handler : M A) : M A :=
  try_except_when exn_import_error body (fun _ => handler).

(** [for x in xs: body x] *)
Fixpoint for_each {A} (xs : list A) (body : A -> M unit) : M unit :=
  match xs with
  | [] => ret tt
  | x :: rest => bind (body x) (fun _ => for_each rest body)
  end.

End Monad.

Declare Scope py_scope.
Delimit Scope py_scope with py.
Notation "'let*' x ':=' c 'in' k" := (bind c (fun x => k))
  (at level 10, x name, c at level 100, k at level 200) : py_scope.
Notation "c ';>' k" := (bind c (fun _ => k))
  (at level 100, k at level 200, right associativity) : py_scope.

(** [s[:n]] *)
Definition slice_to (n : nat) (s : string) : string := String.substring 0 n s.

(** [sep.join(xs)] *)
Definition join (sep : string) (xs : list string) : string :=
  String.concat sep xs.

(** [len(s)] *)
Definition len (s : string) : nat := String.length s.

(** [s * n] *)
Fixpoint str_mul (s : string) (n : nat) : string :=
  match n with
  | O => ""
  | S n' => s +:+ str_mul s n'
  end.

(** The format specification [{s:w}] on a string: padded on the right
    with spaces up to width [w], never cut. *)
Definition ljust (w : nat) (s : string) : string :=
  s +:+ str_mul " " (w - len s).

(** The newline character of ["\n"]. *)
Definition nl : string := String "010"%char "".

(** A [dict] with string keys whose entries are only read. *)
Abbreviation dict := (gmap string string).

(** [d[k]]: a missing key raises [KeyError(k)], whose text is the key's
    [repr]. *)
Definition getitem (d : dict) (k : string) : call_result string :=
  match d !! k with
  | Some v => Ok v
  | None => Err (Exn false ("'" +:+ k +:+ "'"))
  end.

(** [d.get(k, default)] *)
Definition dict_get (d : dict) (k default : string) : string :=
  match d !! k with
  | Some v => v
  | None => default
  end.

(** A [dict] filled by [d[k] = v] in a loop and then read in insertion
    order: assigning an existing key keeps its place. *)
Fixpoint setitem {V} (d : list (string * V)) (k : string) (v : V)
  : list (string * V) :=
  match d with
  | [] => [(k, v)]
  | (k', v') :: rest =>
      if String.eqb k' k then (k', v) :: rest
      else (k', v') :: setitem rest k v
  end.

(** [sum(bs)] over booleans: [True] counts for one. *)
Definition sum_bools (bs : list bool) : nat :=
  fold_right (fun (b : bool) (n : nat) => (if b then 1 else 0) + n) 0 bs.

End Py.

Import Py.
Local Open Scope py_scope.

(** ** demo.py *)

Module Demo.

Inductive level := INFO | WARNING | ERROR.

(** What the script writes: records sent to [logger] and lines sent to
    [print]. *)
Inductive event :=
| Logged (l : level) (msg : string)
| Printed (line : string).

Definition console := list event.

Definition logger_info (msg : string) : M (S:=console) unit :=
  modify (fun c => c ++ [Logged INFO msg]).

Definition logger_warning (msg : string) : M (S:=console) unit :=
  modify (fun c => c ++ [Logged WARNING msg]).

Definition logger_error (msg : string) : M (S:=console) unit :=
  modify (fun c => c ++ [Logged ERROR msg]).

Definition print (line : string) : M (S:=console) unit :=
  modify (fun c => c ++ [Printed line]).

(** *** The collaborators

    One record per imported module.  The first field is the [from ... import
    ...] statement itself; the others are the calls the script makes. *)

Record database_module := {
  database_import : call_result unit;
  setup_database : call_result bool;
  HTSDatabase : call_result unit;
  HTSDataProcessor : call_result unit;
  search_hts_codes : string -> nat -> call_result (list dict);
  close_connection : call_result unit
}.

(** A value found under a key of the RAG result: a text, or a value that
    has no length, such as [None] or a number, named by its type. *)
Inductive answer_value :=
| Text (s : string)
| Lengthless (type_name : string).

(** What [rag.query] returns: a dict, or an object that has no [get]
    method, named by its type. *)
Inductive rag_result :=
| AnswerDict (d : gmap string answer_value)
| NotADict (type_name : string).

(** [result.get(key, default)] *)
Definition result_get (result : rag_result) (key : string)
    (default : answer_value) : call_result answer_value :=
  match result with
  | AnswerDict d =>
      Ok (match d !! key with Some v => v | None => default end)
  | NotADict type_name =>
      Err (Exn false ("'" +:+ type_name
                      +:+ "' object has no attribute 'get'"))
  end.

(** [len(answer)] *)
Definition answer_len (answer : answer_value) : call_result nat :=
  match answer with
  | Text s => Ok (len s)
  | Lengthless type_name =>
      Err (Exn false ("object of type '" +:+ type_name
                      +:+ "' has no len()"))
  end.

(** [answer[:n]] *)
Definition answer_slice_to (n : nat) (answer : answer_value)
  : call_result string :=
  match answer with
  | Text s => Ok (slice_to n s)
  | Lengthless type_name =>
      Err (Exn false ("'" +:+ type_name
                      +:+ "' object is not subscriptable"))
  end.

Record rag_module := {
  rag_import : call_result unit;
  create_rag_system : call_result unit;
  rag_query : string -> call_result rag_result
}.

Record TariffInput := {
  hts_code : string;
  product_cost : Q;
  freight : Q;
  insurance : Q;
  quantity : Z;
  unit_weight : Q;
  country_of_origin : string
}.

(** The object [calculate_tariff] returns, by what the test asks of it:
    reading [result.total_landed_cost] and [result.applicable_duty.amount]
    as the numbers the format [:,.2f] wants.  A read raises when the
    attribute is missing or is not a number. *)
Record TariffResult := {
  total_landed_cost : call_result Q;
  applicable_duty_amount : call_result Q
}.

(** [TariffInput_new] is the call [TariffInput(...)] of the imported class;
    [calculate_tariff] gives a result object, or something falsy ([None]
    here). *)
Record tariff_calculator_module := {
  tariff_calculator_import : call_result unit;
  HTSTariffCalculator : call_result unit;
  TariffInput_new : TariffInput -> call_result unit;
  calculate_tariff : TariffInput -> call_result (option TariffResult)
}.

Record agent_module := {
  agent_import : call_result unit;
  create_tariff_bot : call_result unit;
  bot_query : string -> call_result string
}.

(** Everything the script finds around it. *)
Record world := {
  import_ : string -> call_result unit;
  files : gset string;
  database : database_module;
  rag_system : rag_module;
  tariff_calculator : tariff_calculator_module;
  agent : agent_module
}.

(** *** check_dependencies *)

(** One [try: import m; logger.info(...) / except ImportError:
    missing_deps.append(m)] block; the list is the one being built. *)
Definition import_or_record (w : world) (name ok_msg : string)
    (missing_deps : list string) : M (S:=console) (list string) :=
  try_except_ImportError
    (call (import_ w name) ;>
     logger_info ok_msg ;>
     ret missing_deps)
    (ret (missing_deps ++ [name])).

Definition check_dependencies (w : world) : M (S:=console) bool :=
  let missing_deps := [] in
  let* missing_deps :=
    import_or_record w "pandas" "✅ Pandas available" missing_deps in
  let* missing_deps :=
    import_or_record w "sqlite3" "✅ SQLite3 available" missing_deps in
  let* missing_deps :=
    import_or_record w "streamlit" "✅ Streamlit available" missing_deps in
  match missing_deps with
  | _ :: _ =>
      logger_error ("Missing dependencies: " +:+ join ", " missing_deps) ;>
      logger_error "Please install with: pip install -r requirements.txt" ;>
      ret false
  | [] => ret true
  end.

(** *** check_data_files *)

Definition os_path_exists (w : world) (p : string) : bool :=
  bool_decide (p ∈ files w).

Definition required_files : list string :=
  ["data/htsdata.csv"; "data/GeneralNotes.pdf"].

(** The [for file_path in required_files] loop. *)
Fixpoint collect_missing (w : world) (todo missing_files : list string)
  : list string :=
  match todo with
  | [] => missing_files
  | file_path :: rest =>
      if negb (os_path_exists w file_path)
      then collect_missing w rest (missing_files ++ [file_path])
      else collect_missing w rest missing_files
  end.

Definition check_data_files (w : world) : M (S:=console) bool :=
  let missing_files := collect_missing w required_files [] in
  match missing_files with
  | _ :: _ =>
      logger_error ("Missing data files: " +:+ join ", " missing_files) ;>
      ret false
  | [] =>
      logger_info "✅ All required data files found" ;>
      ret true
  end.

(** *** test_database *)

Definition test_database_body (db : database_module) : M (S:=console) bool :=
  logger_info "📊 Testing database..." ;>
  call (database_import db) ;>
  let* success := call (setup_database db) in
  if negb success then
    logger_error "❌ Database setup failed" ;>
    ret false
  else
    call (HTSDatabase db) ;>
    call (HTSDataProcessor db) ;>
    let* results := call (search_hts_codes db "asses" 3) in
    match results with
    | _ :: _ =>
        logger_info ("✅ Database search working: found "
                     +:+ pretty (length results)
                     +:+ " results for 'asses'") ;>
        for_each (take 1 results) (fun result =>
          let* hts_number := call (getitem result "hts_number") in
          let* description := call (getitem result "description") in
          logger_info ("   Found: " +:+ hts_number +:+ " - "
                       +:+ slice_to 50 description +:+ "..."))
    | [] =>
        logger_warning "⚠️ No search results found, but database is functional"
    end ;>
    call (close_connection db) ;>
    ret true.

Definition test_database (w : world) : M (S:=console) bool :=
  try_except (test_database_body (database w))
    (fun e =>
       logger_error ("❌ Database test failed: " +:+ exn_str e) ;>
       ret false).

(** [test_database] over the blocks its calls run, so that a call may also
    exit; [test_database] is this function at calls that return or raise an
    instance of [Exception]. *)
Definition test_database_body_over
    (database_import : M (S:=console) unit)
    (setup_database : M (S:=console) bool)
    (HTSDatabase HTSDataProcessor : M (S:=console) unit)
    (search_hts_codes : string -> nat -> M (S:=console) (list dict))
    (close_connection : M (S:=console) unit) : M (S:=console) bool :=
  logger_info "📊 Testing database..." ;>
  database_import ;>
  let* success := setup_database in
  if negb success then
    logger_error "❌ Database setup failed" ;>
    ret false
  else
    HTSDatabase ;>
    HTSDataProcessor ;>
    let* results := search_hts_codes "asses" 3 in
    match results with
    | _ :: _ =>
        logger_info ("✅ Database search working: found "
                     +:+ pretty (length results)
                     +:+ " results for 'asses'") ;>
        for_each (take 1 results) (fun result =>
          let* hts_number := call (getitem result "hts_number") in
          let* description := call (getitem result "description") in
          logger_info ("   Found: " +:+ hts_number +:+ " - "
                       +:+ slice_to 50 description +:+ "..."))
    | [] =>
        logger_warning "⚠️ No search results found, but database is functional"
    end ;>
    close_connection ;>
    ret true.

Definition test_database_over
    (database_import : M (S:=console) unit)
    (setup_database : M (S:=console) bool)
    (HTSDatabase HTSDataProcessor : M (S:=console) unit)
    (search_hts_codes : string -> nat -> M (S:=console) (list dict))
    (close_connection : M (S:=console) unit) : M (S:=console) bool :=
  try_except
    (test_database_body_over database_import setup_database HTSDatabase
       HTSDataProcessor search_hts_codes close_connection)
    (fun e =>
       logger_error ("❌ Database test failed: " +:+ exn_str e) ;>
       ret false).

(** *** test_rag_system *)

Definition test_rag_system_body (rag : rag_module) : M (S:=console) bool :=
  logger_info "📚 Testing RAG system..." ;>
  call (rag_import rag) ;>
  call (create_rag_system rag) ;>
  let* result :=
    call (rag_query rag
            "What is the United States-Israel Free Trade Agreement?") in
  let* answer := call (result_get result "answer" (Text "")) in
  let* length := call (answer_len answer) in
  (if (50 <? length)%nat then
     logger_info ("✅ RAG system working: " +:+ pretty length
                  +:+ " character response") ;>
     let* sample := call (answer_slice_to 100 answer) in
     logger_info ("   Sample: " +:+ sample +:+ "...")
   else
     logger_warning "⚠️ RAG system returned short response, but is functional") ;>
  ret true.

Definition test_rag_system (w : world) : M (S:=console) bool :=
  try_except (test_rag_system_body (rag_system w))
    (fun e =>
       logger_error ("❌ RAG system test failed: " +:+ exn_str e) ;>
       ret false).

(** *** test_tariff_calculator *)

Definition test_input : TariffInput := {|
  hts_code := "0101.30.00.00";
  product_cost := 10000 # 1;
  freight := 500 # 1;
  insurance := 100 # 1;
  quantity := 5;
  unit_weight := 500 # 1;
  country_of_origin := "CN"
|}.

Section TariffCalculator.
(** The format specification [{x:,.2f}]. *)
Variable format_comma_2f : Q -> string.

Definition test_tariff_calculator_body (calc : tariff_calculator_module)
  : M (S:=console) bool :=
  logger_info "🧮 Testing tariff calculator..." ;>
  call (tariff_calculator_import calc) ;>
  call (HTSTariffCalculator calc) ;>
  call (TariffInput_new calc test_input) ;>
  let* result := call (calculate_tariff calc test_input) in
  match result with
  | Some result =>
      let* total := call (total_landed_cost result) in
      logger_info ("✅ Tariff calculator working: $"
                   +:+ format_comma_2f total +:+ " total cost") ;>
      let* amount := call (applicable_duty_amount result) in
      logger_info ("   Duty: $" +:+ format_comma_2f amount)
  | None =>
      logger_warning "⚠️ Tariff calculator returned no result"
  end ;>
  ret true.

Definition test_tariff_calculator (w : world) : M (S:=console) bool :=
  try_except (test_tariff_calculator_body (tariff_calculator w))
    (fun e =>
       logger_error ("❌ Tariff calculator test failed: " +:+ exn_str e) ;>
       ret false).
End TariffCalculator.

(** *** test_agent *)

Definition test_queries : list string :=
  ["What is the United States-Israel Free Trade Agreement?";
   "What's the HTS code for donkeys?";
   "How is classification determined for manufacturing items?"].

(** The [for query in test_queries: ... break / else: ...] loop: the
    [else] branch runs when the list is exhausted without a [break]. *)
Fixpoint query_until_long (ag : agent_module) (queries : list string)
  : M (S:=console) unit :=
  match queries with
  | [] => logger_warning "⚠️ Agent responses are short, but functional"
  | query :: rest =>
      let* response := call (bot_query ag query) in
      if (50 <? len response)%nat then
        logger_info ("✅ Agent query working: " +:+ pretty (len response)
                     +:+ " character response") ;>
        logger_info ("   Query: " +:+ query) ;>
        logger_info ("   Sample: " +:+ slice_to 100 response +:+ "...")
      else query_until_long ag rest
  end.

Definition test_agent_body (ag : agent_module) : M (S:=console) bool :=
  logger_info "🤖 Testing TariffBot agent..." ;>
  call (agent_import ag) ;>
  call (create_tariff_bot ag) ;>
  query_until_long ag test_queries ;>
  ret true.

Definition test_agent (w : world) : M (S:=console) bool :=
  try_except (test_agent_body (agent w))
    (fun e =>
       logger_error ("❌ Agent test failed: " +:+ exn_str e) ;>
       ret false).

(** *** run_comprehensive_demo *)

(** The loop over [tests]: each function is called under its own
    [try]/[except], and its result stored under the test's name. *)
Fixpoint run_tests (tests : list (string * M (S:=console) bool))
    (results : list (string * bool)) : M (S:=console) (list (string * bool)) :=
  match tests with
  | [] => ret results
  | (test_name, test_func) :: rest =>
      let* results :=
        try_except
          (let* passed := test_func in
           ret (setitem results test_name passed))
          (fun e =>
             logger_error ("❌ " +:+ test_name +:+ " test crashed: "
                           +:+ exn_str e) ;>
             ret (setitem results test_name false)) in
      run_tests rest results
  end.

Definition print_summary (results : list (string * bool))
  : M (S:=console) unit :=
  for_each results (fun '(test_name, passed) =>
    let status := if (passed : bool) then "✅ PASS" else "❌ FAIL" in
    print (ljust 20 test_name +:+ " " +:+ status)).

Section Run.
Variable format_comma_2f : Q -> string.

Definition tests (w : world) : list (string * M (S:=console) bool) :=
  [("Database", test_database w);
   ("RAG System", test_rag_system w);
   ("Tariff Calculator", test_tariff_calculator format_comma_2f w);
   ("TariffBot Agent", test_agent w)].

(** The end of [run_comprehensive_demo], from its [# Summary] comment on. *)
Definition summarize (results : list (string * bool)) : M (S:=console) bool :=
  print (nl +:+ str_mul "=" 50) ;>
  print "📋 Test Results Summary:" ;>
  print (str_mul "=" 50) ;>
  print_summary results ;>
  let passed_tests := sum_bools (results.*2) in
  let total_tests := length results in
  print (nl +:+ "Overall: " +:+ pretty passed_tests +:+ "/"
         +:+ pretty total_tests +:+ " tests passed") ;>
  (if (passed_tests =? total_tests)%nat then
     print (nl +:+ "🎉 All tests passed! HTS AI Agent is fully functional.") ;>
     print (nl +:+ "To run the web interface:") ;>
     print "streamlit run frontend/app.py"
   else if (0 <? passed_tests)%nat then
     print (nl +:+ "⚠️ " +:+ pretty passed_tests +:+ " out of "
            +:+ pretty total_tests +:+ " components working.") ;>
     print "The system will use fallback responses for failed components." ;>
     print (nl +:+ "To run the web interface:") ;>
     print "streamlit run frontend/app.py"
   else
     print (nl +:+ "❌ All tests failed. Please check the error messages above.")) ;>
  ret (0 <? passed_tests)%nat.

Definition run_comprehensive_demo (w : world) : M (S:=console) bool :=
  print "🚢 HTS AI Agent - Comprehensive Demo" ;>
  print (str_mul "=" 50) ;>
  let* deps_ok := check_dependencies w in
  if negb deps_ok then
    print "❌ Dependency check failed. Please install required packages." ;>
    ret false
  else
  let* data_ok := check_data_files w in
  if negb data_ok then
    print "❌ Data file check failed. Please ensure data files are present." ;>
    ret false
  else
  let* results := run_tests (tests w) [] in
  summarize results.
End Run.

End Demo.

(** ** frontend/app.py

    One run of the script: Streamlit re-runs [main] on every interaction,
    with the widgets reporting what the user just did.  The session state
    and the resource cache survive from one run to the next; the page is
    what the run has rendered so far.  [sys.path.append] changes nothing
    the model looks at and is left out.  The page configuration and the style
    sheet emitted at import time read no input and are left out; the two
    long static texts of the guide and the about page are parameters. *)

Module App.

(** The double quote, for the HTML attributes of the source's markup. *)
Definition dq : string := String "034"%char "".

Definition quoted (s : string) : string := dq +:+ s +:+ dq.

(** An entry of [st.session_state.messages]: [{"role": ..., "content": ...}]. *)
Record message := Message { role : string; content : string }.

(** What a run puts on the page, in order.  A [with] container is recorded
    by the element that opens it. *)
Inductive element :=
| st_markdown (body : string)
| st_header (text : string)
| st_write (text : string)
| st_success (text : string)
| st_warning (text : string)
| st_error (text : string)
| st_info (text : string)
| st_spinner (text : string)
| st_chat_message (name : string)
| st_expander (label : string)
| st_sidebar_title (text : string)
| st_sidebar_selectbox (label : string) (options : list string)
| st_chat_input (placeholder : string)
| st_button (label key : string).

(** The object [create_tariff_bot()] returns. *)
Record TariffBot := { query : string -> call_result string }.

(** The pair [initialize_bot] returns; [None] is Python's [None]. *)
Definition bot_and_error : Type := option TariffBot * option string.

(** What survives a run: the transcript of [st.session_state], absent
    until the chat page first creates it, and the resource cache of
    [initialize_bot]; and the page rendered so far. *)
Record session := Session {
  messages : option (list message);
  bot_cache : option bot_and_error;
  page : list element
}.

Definition render (e : element) : M (S:=session) unit :=
  modify (fun s => Session (messages s) (bot_cache s) (page s ++ [e])).

(** What the script finds around it. *)
Record world := {
  environ : gmap string string;
  files : gset string;
  agent_real_llm_import : call_result unit;
  database_import : call_result unit;
  setup_database : call_result bool;
  create_tariff_bot : call_result TariffBot
}.

(** What the widgets report on this run: the option selected in the
    sidebar, the prompt submitted to the chat input if any, and for each
    button key whether that button was pressed. *)
Record widgets := {
  selectbox : string;
  chat_input : option string;
  button : string -> bool
}.

(** [bot.query(q)]; on [None] the attribute lookup raises
    [AttributeError]. *)
Definition bot_query (bot : option TariffBot) (q : string)
  : call_result string :=
  match bot with
  | Some b => query b q
  | None => Err (Exn false "'NoneType' object has no attribute 'query'")
  end.

(** Truthiness of a value that is [None] or a [str]. *)
Definition truthy (v : option string) : bool :=
  match v with
  | Some s => negb (String.eqb s "")
  | None => false
  end.

(** *** initialize_bot *)

Definition initialize_bot_body (w : world) : M (S:=session) bot_and_error :=
  try_except
    (call (agent_real_llm_import w) ;>
     call (database_import w) ;>
     (if negb (bool_decide ("data/hts_data.db" ∈ files w)) then
        render (st_spinner "Setting up database for first time use...") ;>
        let* _ := call (setup_database w) in
        ret tt
      else ret tt) ;>
     render (st_spinner "Initializing TariffBot with LLM...") ;>
     let* bot := call (create_tariff_bot w) in
     ret (Some bot, None))
    (fun e => ret (None, Some (exn_str e))).

(** Modelled from the spec: the decorator [@st.cache_resource] is
    Streamlit's and not under src/; section 9 of the design document
    describes what it gives here, "a globally cached singleton bot
    instance (constructed once, reused across requests)".  The body runs
    when nothing is cached, and what it returns is kept for the later
    runs. *)
Definition initialize_bot (w : world) : M (S:=session) bot_and_error :=
  let* s := get in
  match bot_cache s with
  | Some cached => ret cached
  | None =>
      let* r := initialize_bot_body w in
      modify (fun s => Session (messages s) (Some r) (page s)) ;>
      ret r
  end.

(** *** check_openai_setup *)

Definition os_getenv (w : world) (name : string) : option string :=
  environ w !! name.

Definition check_openai_setup (w : world) : bool :=
  let api_key := os_getenv w "OPENAI_API_KEY" in
  match api_key with
  | Some _ => true
  | None => false
  end.

(** *** chat_interface *)

Definition response_box (response : string) : string :=
  "<div class=" +:+ quoted "response-box" +:+ ">" +:+ response +:+ "</div>".

(** [st.session_state.messages.append(m)]; the attribute lookup raises when
    the key was never set. *)
Definition messages_append (m : message) : M (S:=session) unit :=
  fun s =>
    match messages s with
    | Some ms =>
        (Return tt, Session (Some (ms ++ [m])) (bot_cache s) (page s))
    | None =>
        (Raise (Exn false ("st.session_state has no attribute "
                           +:+ quoted "messages")), s)
    end.

Definition display_message (m : message) : M (S:=session) unit :=
  render (st_chat_message (role m)) ;>
  if String.eqb (role m) "assistant"
  then render (st_markdown (response_box (content m)))
  else render (st_markdown (content m)).

Definition chat_interface (bot : option TariffBot) (has_openai : bool)
    (ui : widgets) : M (S:=session) unit :=
  render (st_header "Chat with TariffBot") ;>
  (if has_openai then
     render (st_success
       "🤖 Using OpenAI LLM for intelligent responses from HTS General Notes")
   else
     render (st_warning
       "📄 Using basic text extraction (set OPENAI_API_KEY for full LLM functionality)")) ;>
  render (st_write
    "Ask me anything about HTS tariffs, trade agreements, or duty calculations!") ;>
  let* s := get in
  (match messages s with
   | None => modify (fun s => Session (Some []) (bot_cache s) (page s))
   | Some _ => ret tt
   end) ;>
  let* s := get in
  for_each (default [] (messages s)) display_message ;>
  render (st_chat_input
    "Ask about HTS codes, tariffs, or trade agreements...") ;>
  if truthy (chat_input ui) then
    let prompt := default "" (chat_input ui) in
    messages_append (Message "user" prompt) ;>
    render (st_chat_message "user") ;>
    render (st_markdown prompt) ;>
    render (st_chat_message "assistant") ;>
    render (st_spinner (if has_openai
                        then "Generating response with LLM..."
                        else "Processing with text extraction...")) ;>
    let* response :=
      try_except (call (bot_query bot prompt))
        (fun e =>
           ret ("I encountered an error processing your question: "
                +:+ exn_str e)) in
    render (st_markdown (response_box response)) ;>
    messages_append (Message "assistant" response)
  else ret tt.

(** [chat_interface] over the block [bot.query] runs, so that the call may
    also exit; [chat_interface] is this function at a call that returns or
    raises an instance of [Exception]. *)
Definition chat_interface_over (bot_query : string -> M (S:=session) string)
    (has_openai : bool) (ui : widgets) : M (S:=session) unit :=
  render (st_header "Chat with TariffBot") ;>
  (if has_openai then
     render (st_success
       "🤖 Using OpenAI LLM for intelligent responses from HTS General Notes")
   else
     render (st_warning
       "📄 Using basic text extraction (set OPENAI_API_KEY for full LLM functionality)")) ;>
  render (st_write
    "Ask me anything about HTS tariffs, trade agreements, or duty calculations!") ;>
  let* s := get in
  (match messages s with
   | None => modify (fun s => Session (Some []) (bot_cache s) (page s))
   | Some _ => ret tt
   end) ;>
  let* s := get in
  for_each (default [] (messages s)) display_message ;>
  render (st_chat_input
    "Ask about HTS codes, tariffs, or trade agreements...") ;>
  if truthy (chat_input ui) then
    let prompt := default "" (chat_input ui) in
    messages_append (Message "user" prompt) ;>
    render (st_chat_message "user") ;>
    render (st_markdown prompt) ;>
    render (st_chat_message "assistant") ;>
    render (st_spinner (if has_openai
                        then "Generating response with LLM..."
                        else "Processing with text extraction...")) ;>
    let* response :=
      try_except (bot_query prompt)
        (fun e =>
           ret ("I encountered an error processing your question: "
                +:+ exn_str e)) in
    render (st_markdown (response_box response)) ;>
    messages_append (Message "assistant" response)
  else ret tt.

(** *** sample_questions_interface *)

Record sample := Sample {
  question : string;
  category : string;
  description : string
}.

Definition sample_questions : list sample := [
  Sample "What is the United States-Israel Free Trade Agreement?"
         "Trade Agreements"
         "LLM will analyze HTS General Notes to explain the 1985 FTA";
  Sample "Can a product that exceeds its tariff-rate quota still qualify for duty-free entry under GSP?"
         "Trade Policy"
         "LLM will explain the relationship between TRQs and GSP from official documentation";
  Sample "How is classification determined for an imported item used in manufacturing?"
         "Classification"
         "LLM will extract and explain HTS classification rules from the PDF";
  Sample "What's the HTS code for donkeys?"
         "HTS Search"
         "Database search for specific animal classifications";
  Sample "Calculate tariff for HTS code 0101.30.00.00 with cost $10,000"
         "Tariff Calculation"
         "Real tariff calculation with duty rate parsing"
].

(** The body of the [for i, item in enumerate(sample_questions)] loop. *)
Definition sample_block (bot : option TariffBot) (has_openai : bool)
    (ui : widgets) (i : nat) (item : sample) : M (S:=session) unit :=
  render (st_expander (category item +:+ ": " +:+ question item)) ;>
  render (st_write ("**How it works:** " +:+ description item)) ;>
  render (st_button "Ask this question" ("sample_" +:+ pretty i)) ;>
  if button ui ("sample_" +:+ pretty i) then
    render (st_spinner (if has_openai
                        then "Generating LLM response..."
                        else "Processing...")) ;>
    let* response :=
      try_except (call (bot_query bot (question item)))
        (fun e => ret ("Error: " +:+ exn_str e)) in
    render (st_markdown (response_box response)) ;>
    if has_openai then
      render (st_info
        "✅ Response generated using OpenAI LLM with HTS General Notes content")
    else
      render (st_info "📄 Response generated using basic text extraction")
  else ret tt.

Definition sample_questions_interface (bot : option TariffBot)
    (has_openai : bool) (ui : widgets) : M (S:=session) unit :=
  render (st_header "Sample Questions") ;>
  (if has_openai then
     render (st_success
       "🤖 These questions will be answered using OpenAI LLM with HTS General Notes content")
   else
     render (st_warning
       "📄 These questions will be answered using basic text extraction")) ;>
  render (st_write
    "Try these sample questions to see TariffBot's LLM capabilities:") ;>
  for_each (imap pair sample_questions)
    (fun '(i, item) => sample_block bot has_openai ui i item).

Section StaticPages.
(** The markdown bodies of the setup guide and of the about page. *)
Variables setup_guide_text about_text : string.

Definition setup_guide_interface (w : world) : M (S:=session) unit :=
  render (st_header "🔧 Setup Guide for Full LLM Functionality") ;>
  render (st_markdown setup_guide_text) ;>
  let has_openai := check_openai_setup w in
  if has_openai then
    render (st_success
      "✅ OpenAI API Key is configured! You're getting full LLM functionality.")
  else
    render (st_warning
      "⚠️ OpenAI API Key not found. Follow the steps above to enable full LLM functionality.").

Definition about_interface : M (S:=session) unit :=
  render (st_header "About TariffBot with Real LLM") ;>
  render (st_markdown about_text).

(** *** main *)

Definition api_key_box : string :=
  nl +:+ "        <div class=" +:+ quoted "api-key-box" +:+ ">"
  +:+ nl +:+ "        ⚠️ <strong>OpenAI API Key Not Found</strong><br>"
  +:+ nl +:+ "        For full LLM functionality, set your OpenAI API key as an environment variable:<br>"
  +:+ nl +:+ "        <code>export OPENAI_API_KEY=" +:+ quoted "your-api-key-here" +:+ "</code><br>"
  +:+ nl +:+ "        The system will use basic text extraction as fallback."
  +:+ nl +:+ "        </div>"
  +:+ nl +:+ "        ".

Definition modes : list string :=
  ["💬 Chat with TariffBot"; "📚 Sample Questions"; "🔧 Setup Guide";
   "ℹ️ About"].

Definition main (w : world) (ui : widgets) : M (S:=session) unit :=
  render (st_markdown ("<h1 class=" +:+ quoted "main-header"
                       +:+ ">🚢 TariffBot</h1>")) ;>
  render (st_markdown ("<p class=" +:+ quoted "sub-header"
                       +:+ ">Intelligent Assistant with Real LLM Responses</p>")) ;>
  let has_openai := check_openai_setup w in
  (if has_openai then
     render (st_markdown ("<div class=" +:+ quoted "success-box"
       +:+ ">✅ <strong>OpenAI API Key Detected</strong> - Full LLM functionality enabled</div>"))
   else
     render (st_markdown api_key_box)) ;>
  let* bot_error := initialize_bot w in
  let '(bot, error) := bot_error in
  (if truthy error then
     render (st_error ("Failed to initialize TariffBot: "
                       +:+ default "" error)) ;>
     stop
   else ret tt) ;>
  render (st_sidebar_title "Navigation") ;>
  render (st_sidebar_selectbox "Choose Mode" modes) ;>
  let mode := selectbox ui in
  if String.eqb mode "💬 Chat with TariffBot" then
    chat_interface bot has_openai ui
  else if String.eqb mode "📚 Sample Questions" then
    sample_questions_interface bot has_openai ui
  else if String.eqb mode "🔧 Setup Guide" then
    setup_guide_interface w
  else if String.eqb mode "ℹ️ About" then
    about_interface
  else ret tt.
End StaticPages.

End App.

(** ** The query orchestrator and the generator wrapper

    The orchestrator behind [bot.query] lives in [agent_real_llm], which is
    not among the two files above.  This module follows sections 4.1, 4.3
    and 6 of the design document instead. *)

Module Orchestrator.

(** Modelled from the spec: the provenance tag of section 3, "one of
    {database, generated, fallback}". *)
Inductive provenance := database | generated | fallback.

(** Modelled from the spec: the Answer of section 3, a final text and its
    provenance tag. *)
Record Answer := { text : string; tag : provenance }.

(** Modelled from the spec: the CandidateRecord of section 3. *)
Record CandidateRecord := {
  code : string;
  record_description : string;
  duty_rate : string
}.

(** Modelled from the spec: the RetrievedPassage of section 3. *)
Record RetrievedPassage := {
  passage_text : string;
  source_offset : nat;
  relevance_score : Q
}.

(** Modelled from the spec: the ways a call to the Answer Generator fails,
    sections 4.1 and 4.3: network error, timeout, authentication error,
    quota error. *)
Inductive failure := network_error | timeout | auth_error | quota_error.

(** Modelled from the spec: the wrapper's test for a failure worth a retry,
    which [agent_real_llm] would hold; "transient failure (network/timeout
    only -- not on authentication or quota errors)". *)
Definition transient (f : failure) : bool :=
  match f with
  | network_error | timeout => true
  | auth_error | quota_error => false
  end.

(** Modelled from the spec: a request sent to the generator, the query and
    the context of [generate(query, context)]. *)
Definition request : Type := string * string.

Section Wrapper.
(** The remote generator: what the call numbered [n] of a request (counted
    from 0) comes back with, an error or a text.  A call that exceeds the
    request timeout comes back with [timeout]. *)
Variable generate : nat -> string -> string -> failure + string.
(** The size limit on the passages sent. *)
Variable max_context : nat.

(** Modelled from the spec: one call of [generate(query, context)]; the
    state is the list of the calls issued so far. *)
Definition call_generator (query context : string)
  : M (S:=list request) (failure + string) :=
  fun issued =>
    (Return (generate (length issued) query context),
     issued ++ [(query, context)]).

(** Modelled from the spec: the Generator Invocation Wrapper of section
    4.3, absent from the source files: the passages are cut to the size
    limit, the call is made, and it is made once more when the first one
    failed with a transient failure. *)
Definition invoke_generator (query passages : string)
  : M (S:=list request) (failure + string) :=
  let context := slice_to max_context passages in
  let* first := call_generator query context in
  match first with
  | inr text => ret (inr text)
  | inl f =>
      if transient f then call_generator query context
      else ret (inl f)
  end.
End Wrapper.

Section Answer.
(** The collaborators and the configured constants. *)
Variable is_structured_lookup : string -> bool.
Variable search : string -> nat -> call_result (list CandidateRecord).
Variable retrieve : string -> nat -> call_result (list RetrievedPassage).
Variable generate : nat -> string -> string -> failure + string.
Variable compose : list CandidateRecord -> string.
Variables limit K min_length max_context : nat.

(** Modelled from the spec: the worst case of section 7, "a generic
    'unable to find information' message with provenance fallback". *)
Definition unable : Answer :=
  {| text := "unable to find information"; tag := fallback |}.

(** Modelled from the spec: step 4 of the routing policy, the local
    fallback: "return the single highest-scoring passage verbatim", the
    generic message when there is none. *)
Definition local_fallback (passages : list RetrievedPassage) : Answer :=
  match passages with
  | top :: _ => {| text := passage_text top; tag := fallback |}
  | [] => unable
  end.

(** Modelled from the spec: steps 2 to 4 of the routing policy, the
    informational path of the absent orchestrator: retrieve, keep the top
    K, generate from their concatenation, and degrade to the fallback when
    the generator fails or its text is shorter than the minimum. *)
Definition informational (query : string) : Answer :=
  match retrieve query K with
  | Err _ => unable
  | Ok passages =>
      let top_k := take K passages in
      let context := String.concat "" (passage_text <$> top_k) in
      match fst (invoke_generator generate max_context query context []) with
      | Return (inr generated_text) =>
          if (len generated_text <? min_length)%nat
          then local_fallback top_k
          else {| text := generated_text; tag := generated |}
      | _ => local_fallback top_k
      end
  end.

(** Modelled from the spec: the entry point [answer] of the absent
    orchestrator, section 4.1: a structured lookup goes to the Database
    Accessor and, "if zero records match, fall[s] through to step 2"; a
    failing collaborator gives a fallback Answer. *)
Definition answer (query : string) : Answer :=
  if is_structured_lookup query then
    match search query limit with
    | Ok (r :: rs) => {| text := compose (r :: rs); tag := database |}
    | Ok [] => informational query
    | Err _ => unable
    end
  else informational query.
End Answer.

End Orchestrator.

(** ** Vocabulary of the statements *)

(** Whether [import name] succeeds. *)
Definition importable (w : Demo.world) (name : string) : bool :=
  match Demo.import_ w name with
  | Ok _ => true
  | Err _ => false
  end.

(** The three modules [check_dependencies] asks for, with the line logged
    when one is there. *)
Definition dependencies : list (string * string) :=
  [("pandas", "✅ Pandas available");
   ("sqlite3", "✅ SQLite3 available");
   ("streamlit", "✅ Streamlit available")].

Definition missing_dependencies (w : Demo.world) : list string :=
  (List.filter (fun d => negb (importable w d.1)) dependencies).*1.

Definition available_lines (w : Demo.world) : list Demo.event :=
  (fun d => Demo.Logged Demo.INFO d.2)
    <$> List.filter (fun d => importable w d.1) dependencies.

(** The first line each component test logs, in the order of [tests]. *)
Definition test_banners : list string :=
  ["📊 Testing database..."; "📚 Testing RAG system...";
   "🧮 Testing tariff calculator..."; "🤖 Testing TariffBot agent..."].

(** The component tests a console shows to have started, in order. *)
Definition tests_started (c : Demo.console) : list string :=
  flat_map (fun ev =>
    match ev with
    | Demo.Logged Demo.INFO msg =>
        if existsb (String.eqb msg) test_banners then [msg] else []
    | _ => []
    end) c.

(** A block of the demo writes to the console and never reads it, and the
    framework's stop signal does not occur in it. *)
Definition writes_only {A} (m : M (S:=Demo.console) A) : Prop :=
  forall c, m c = (fst (m []), c ++ snd (m [])) /\ fst (m []) <> Stopped.

(** A block that returns [a] after writing lines that start no test. *)
Definition ends_quietly {A} (m : M (S:=Demo.console) A) (a : A) : Prop :=
  forall c, exists out, m c = (Return a, c ++ out) /\ tests_started out = [].

(** ** Sample inputs

    An installation that lacks pandas and streamlit and holds only the CSV
    file; every collaborator answers, with nothing to report. *)
Definition bare_world : Demo.world := {|
  Demo.import_ := fun name =>
    if String.eqb name "sqlite3" then Ok tt
    else Err (Exn true ("No module named '" +:+ name +:+ "'"));
  Demo.files := {["data/htsdata.csv"]};
  Demo.database := {|
    Demo.database_import := Ok tt;
    Demo.setup_database := Ok true;
    Demo.HTSDatabase := Ok tt;
    Demo.HTSDataProcessor := Ok tt;
    Demo.search_hts_codes := fun _ _ => Ok [];
    Demo.close_connection := Ok tt |};
  Demo.rag_system := {|
    Demo.rag_import := Ok tt;
    Demo.create_rag_system := Ok tt;
    Demo.rag_query := fun _ => Ok (Demo.AnswerDict ∅) |};
  Demo.tariff_calculator := {|
    Demo.tariff_calculator_import := Ok tt;
    Demo.HTSTariffCalculator := Ok tt;
    Demo.TariffInput_new := fun _ => Ok tt;
    Demo.calculate_tariff := fun _ => Ok None |};
  Demo.agent := {|
    Demo.agent_import := Ok tt;
    Demo.create_tariff_bot := Ok tt;
    Demo.bot_query := fun _ => Ok "" |}
|}.


(** An installation where the [database] module does not import and the
    bot raises on every query; the RAG system answers with a long text. *)
Definition broken_world : Demo.world := {|
  Demo.import_ := fun _ => Ok tt;
  Demo.files := {["data/htsdata.csv"; "data/GeneralNotes.pdf"]};
  Demo.database := {|
    Demo.database_import := Err (Exn true "No module named 'database'");
    Demo.setup_database := Ok true;
    Demo.HTSDatabase := Ok tt;
    Demo.HTSDataProcessor := Ok tt;
    Demo.search_hts_codes := fun _ _ => Ok [];
    Demo.close_connection := Ok tt |};
  Demo.rag_system := {|
    Demo.rag_import := Ok tt;
    Demo.create_rag_system := Ok tt;
    Demo.rag_query := fun _ =>
      Ok (Demo.AnswerDict
            {["answer" :=
              Demo.Text "The United States-Israel Free Trade Agreement entered into force in 1985."]}) |};
  Demo.tariff_calculator := {|
    Demo.tariff_calculator_import := Ok tt;
    Demo.HTSTariffCalculator := Ok tt;
    Demo.TariffInput_new := fun _ => Ok tt;
    Demo.calculate_tariff := fun _ => Ok None |};
  Demo.agent := {|
    Demo.agent_import := Ok tt;
    Demo.create_tariff_bot := Ok tt;
    Demo.bot_query := fun _ => Err (Exn false "Connection error.") |}
|}.

(** The answer the interface shows for a question: the bot's text, or the
    text of the exception behind the interface's prefix. *)
Definition reply (prefix : string) (bot : option App.TariffBot)
    (q : string) : string :=
  match App.bot_query bot q with
  | Ok r => r
  | Err e => prefix +:+ exn_str e
  end.

Definition chat_error_prefix : string :=
  "I encountered an error processing your question: ".

(** The method the sample page names under an answer. *)
Definition method_shown (has_openai : bool) : App.element :=
  if has_openai
  then App.st_info
         "✅ Response generated using OpenAI LLM with HTS General Notes content"
  else App.st_info "📄 Response generated using basic text extraction".

(** The notice the chat page opens with. *)
Definition chat_notice (has_openai : bool) : App.element :=
  if has_openai
  then App.st_success
         "🤖 Using OpenAI LLM for intelligent responses from HTS General Notes"
  else App.st_warning
         "📄 Using basic text extraction (set OPENAI_API_KEY for full LLM functionality)".

(** Bots: one that cannot reach its generator, one that answers. *)
Definition failing_bot : App.TariffBot :=
  {| App.query := fun _ => Err (Exn false "Connection error.") |}.

Definition echo_bot : App.TariffBot :=
  {| App.query := fun q => Ok ("You asked: " +:+ q) |}.

(** A first run: no transcript yet, nothing cached, an empty page. *)
Definition fresh : App.session := App.Session None None [].

(** The user submits [prompt] on the chat page. *)
Definition asks (prompt : string) : App.widgets := {|
  App.selectbox := "💬 Chat with TariffBot";
  App.chat_input := Some prompt;
  App.button := fun _ => false
|}.

(** The user presses the button [key] on the sample page. *)
Definition clicks (key : string) : App.widgets := {|
  App.selectbox := "📚 Sample Questions";
  App.chat_input := None;
  App.button := String.eqb key
|}.

(** An installation with its database in place, with or without the API
    key, where [create_tariff_bot()] comes back with [created]. *)
Definition installation (api_key : option string)
    (created : call_result App.TariffBot) : App.world := {|
  App.environ :=
    match api_key with
    | Some k => {["OPENAI_API_KEY" := k]}
    | None => ∅
    end;
  App.files := {["data/hts_data.db"]};
  App.agent_real_llm_import := Ok tt;
  App.database_import := Ok tt;
  App.setup_database := Ok true;
  App.create_tariff_bot := created
|}.

(** The same installation with another environment. *)
Definition with_environ (env : gmap string string) (w : App.world)
  : App.world := {|
  App.environ := env;
  App.files := App.files w;
  App.agent_real_llm_import := App.agent_real_llm_import w;
  App.database_import := App.database_import w;
  App.setup_database := App.setup_database w;
  App.create_tariff_bot := App.create_tariff_bot w
|}.

(** A generator whose first call times out and whose later calls answer,
    and one that refuses the credential every time. *)
Definition flaky_generator (n : nat) (query context : string)
  : Orchestrator.failure + string :=
  match n with
  | O => inl Orchestrator.timeout
  | S _ => inr "GSP is the Generalized System of Preferences."
  end.

Definition locked_generator (n : nat) (query context : string)
  : Orchestrator.failure + string :=
  inl Orchestrator.auth_error.

Definition unicorn_passage : Orchestrator.RetrievedPassage := {|
  Orchestrator.passage_text := "No heading provides for unicorns.";
  Orchestrator.source_offset := 120;
  Orchestrator.relevance_score := 9 # 10
|}.

(** ** demo.py: the script's entry point

    The [if __name__ == "__main__"] block. *)

Module DemoMain.

Section Script.
Variable format_comma_2f : Q -> string.

Definition script (w : Demo.world) : M (S:=Demo.console) unit :=
  let* success := Demo.run_comprehensive_demo format_comma_2f w in
  Demo.print (nl +:+ "🎉 Demo session completed!") ;>
  if (success : bool) then
    Demo.print "For questions or issues, please check the README.md file."
  else
    Demo.print "Please resolve the issues above and try again.".
End Script.

End DemoMain.

(** ** Further vocabulary *)

(** The names [check_dependencies] imports, in its order. *)
Definition dependency_names : list string := dependencies.*1.

(** Whether a failed import is one [check_dependencies] handles. *)
Definition handled_import (w : Demo.world) (name : string) : Prop :=
  forall e, Demo.import_ w name = Err e -> exn_import_error e = true.

(** Whether a bot's response counts as long for [test_agent]. *)
Definition long_response (ag : Demo.agent_module) (q : string) : bool :=
  match Demo.bot_query ag q with
  | Ok response => (50 <? len response)%nat
  | Err _ => false
  end.

(** Whether a query returns a response that [test_agent] finds short. *)
Definition short_response (ag : Demo.agent_module) (q : string) : Prop :=
  exists response,
    Demo.bot_query ag q = Ok response /\ len response <= 50.

(** What a test contributes to [results]: its boolean, [False] when it
    raised. *)
Definition recorded (test_func : M (S:=Demo.console) bool) : bool :=
  match fst (test_func []) with
  | Return passed => passed
  | _ => false
  end.

(** How the chat page shows a transcript. *)
Definition shown_message (m : App.message) : list App.element :=
  [App.st_chat_message (App.role m);
   App.st_markdown
     (if String.eqb (App.role m) "assistant"
      then App.response_box (App.content m)
      else App.content m)].

Definition shown_transcript (ms : list App.message) : list App.element :=
  flat_map shown_message ms.

(** The head of the chat page. *)
Definition chat_head (has_openai : bool) : list App.element :=
  [App.st_header "Chat with TariffBot";
   chat_notice has_openai;
   App.st_write
     "Ask me anything about HTS tariffs, trade agreements, or duty calculations!"].

Definition chat_box : App.element :=
  App.st_chat_input "Ask about HTS codes, tariffs, or trade agreements...".

(** The exchange a prompt adds to the transcript. *)
Definition exchange (bot : option App.TariffBot) (prompt : string)
  : list App.message :=
  [App.Message "user" prompt;
   App.Message "assistant" (reply chat_error_prefix bot prompt)].

(** A run of the chat page with no prompt: the user only looks. *)
Definition looks : App.widgets := {|
  App.selectbox := "💬 Chat with TariffBot";
  App.chat_input := None;
  App.button := fun _ => false
|}.

(** An installation whose database has still to be set up. *)
Definition first_use (set_up : call_result bool)
    (created : call_result App.TariffBot) : App.world := {|
  App.environ := ∅;
  App.files := ∅;
  App.agent_real_llm_import := Ok tt;
  App.database_import := Ok tt;
  App.setup_database := set_up;
  App.create_tariff_bot := created
|}.

(** An installation where importing pandas fails inside numpy. *)
Definition broken_pandas : Demo.world := {|
  Demo.import_ := fun name =>
    if String.eqb name "pandas"
    then Err (Exn false "module 'numpy' has no attribute 'float'")
    else Ok tt;
  Demo.files := Demo.files broken_world;
  Demo.database := Demo.database broken_world;
  Demo.rag_system := Demo.rag_system broken_world;
  Demo.tariff_calculator := Demo.tariff_calculator broken_world;
  Demo.agent := Demo.agent broken_world
|}.

(** A bot that answers the first test query briefly, the second at length,
    and fails on everything else. *)
Definition moody_agent : Demo.agent_module := {|
  Demo.agent_import := Ok tt;
  Demo.create_tariff_bot := Ok tt;
  Demo.bot_query := fun q =>
    if String.eqb q "What is the United States-Israel Free Trade Agreement?"
    then Ok "See General Note 8."
    else if String.eqb q "What's the HTS code for donkeys?"
    then Ok "Live asses are classified in heading 0101, subheading 0101.30.00.00."
    else Err (Exn false "Connection error.")
|}.

(** A description of 60 characters. *)
Definition asses_description : string :=
  "Asses, purebred breeding animals, imported for breeding only".

(** An installation whose catalog has two records for 'asses', the second
    without a description. *)
Definition asses_world : Demo.world := {|
  Demo.import_ := fun _ => Ok tt;
  Demo.files := Demo.files broken_world;
  Demo.database := {|
    Demo.database_import := Ok tt;
    Demo.setup_database := Ok true;
    Demo.HTSDatabase := Ok tt;
    Demo.HTSDataProcessor := Ok tt;
    Demo.search_hts_codes := fun _ _ =>
      Ok [{["hts_number" := "0101.30.00.00"; "description" := asses_description]};
          {["hts_number" := "0101.90.40.00"]}];
    Demo.close_connection := Ok tt |};
  Demo.rag_system := Demo.rag_system broken_world;
  Demo.tariff_calculator := Demo.tariff_calculator broken_world;
  Demo.agent := Demo.agent broken_world
|}.

(** An installation whose RAG system answers with [None]. *)
Definition none_answer_world : Demo.world := {|
  Demo.import_ := fun _ => Ok tt;
  Demo.files := Demo.files broken_world;
  Demo.database := Demo.database broken_world;
  Demo.rag_system := {|
    Demo.rag_import := Ok tt;
    Demo.create_rag_system := Ok tt;
    Demo.rag_query := fun _ =>
      Ok (Demo.AnswerDict {["answer" := Demo.Lengthless "NoneType"]}) |};
  Demo.tariff_calculator := Demo.tariff_calculator broken_world;
  Demo.agent := Demo.agent broken_world
|}.

(** ** The console is write-only *)

Section WritesOnly.
Context {A B : Type}.

Lemma writes_only_ret (a : A) : writes_only (ret a).
Proof. intros c. cbn. by rewrite app_nil_r. Qed.

Lemma writes_only_call (r : call_result A) : writes_only (call r).
Proof. intros c. destruct r; cbn; by rewrite app_nil_r. Qed.

Lemma writes_only_bind (m : M A) (k : A -> M B) :
  writes_only m -> (forall a, writes_only (k a)) -> writes_only (bind m k).
Proof.
  intros Hm Hk c. unfold bind.
  destruct (Hm c) as [-> Hns].
  destruct (m []) as [[a|e|] out] eqn:Em; cbn in *; try done.
  destruct (Hk a (c ++ out)) as [-> _].
  destruct (Hk a out) as [-> Hs]. cbn. by rewrite app_assoc.
Qed.

Lemma writes_only_try_except_when (catches : exn -> bool)
    (body : M A) (handler : exn -> M A) :
  writes_only body -> (forall e, writes_only (handler e)) ->
  writes_only (try_except_when catches body handler).
Proof.
  intros Hb Hh c. unfold try_except_when.
  destruct (Hb c) as [-> Hns].
  destruct (body []) as [[a|e|] out] eqn:Eb; cbn in *; try done.
  destruct (catches e); [|done].
  destruct (Hh e (c ++ out)) as [-> _].
  destruct (Hh e out) as [-> Hs]. cbn. by rewrite app_assoc.
Qed.

Lemma writes_only_try_except (body : M A) (handler : exn -> M A) :
  writes_only body -> (forall e, writes_only (handler e)) ->
  writes_only (try_except body handler).
Proof. apply writes_only_try_except_when. Qed.
End WritesOnly.

Lemma writes_only_for_each {A} (xs : list A) (body : A -> M unit) :
  (forall x, writes_only (body x)) -> writes_only (for_each xs body).
Proof.
  intros Hb. induction xs as [|x xs IH]; cbn [for_each].
  - apply writes_only_ret.
  - apply writes_only_bind; auto.
Qed.

Lemma writes_only_emit (evs : list Demo.event) :
  writes_only (modify (fun c => c ++ evs)).
Proof. intros c. by cbn. Qed.

Lemma writes_only_logger_info msg : writes_only (Demo.logger_info msg).
Proof. apply writes_only_emit. Qed.

Lemma writes_only_logger_warning msg : writes_only (Demo.logger_warning msg).
Proof. apply writes_only_emit. Qed.

Lemma writes_only_logger_error msg : writes_only (Demo.logger_error msg).
Proof. apply writes_only_emit. Qed.

Lemma writes_only_print line : writes_only (Demo.print line).
Proof. apply writes_only_emit. Qed.

Create HintDb writes discriminated.
#[local] Hint Resolve writes_only_ret writes_only_call writes_only_logger_info
  writes_only_logger_warning writes_only_logger_error writes_only_print
  : writes.

(** Decomposes a block along its binds, branches and loops. *)
Ltac writes_only_tac :=
  repeat first
    [ progress intros
    | match goal with
      | |- writes_only (bind _ _) => apply writes_only_bind
      | |- writes_only (try_except _ _) => apply writes_only_try_except
      | |- writes_only (try_except_when _ _ _) =>
          apply writes_only_try_except_when
      | |- writes_only (for_each _ _) => apply writes_only_for_each
      | |- writes_only (if ?b then _ else _) => destruct b
      | |- writes_only (match ?x with _ => _ end) => destruct x
      end
    | solve [auto with writes] ].

Lemma writes_only_check_dependencies w :
  writes_only (Demo.check_dependencies w).
Proof.
  unfold Demo.check_dependencies, Demo.import_or_record,
    try_except_ImportError.
  writes_only_tac.
Qed.

Lemma writes_only_check_data_files w :
  writes_only (Demo.check_data_files w).
Proof. unfold Demo.check_data_files. writes_only_tac. Qed.

Lemma writes_only_test_database_body db :
  writes_only (Demo.test_database_body db).
Proof. unfold Demo.test_database_body. writes_only_tac. Qed.

Lemma writes_only_test_rag_system_body rag :
  writes_only (Demo.test_rag_system_body rag).
Proof. unfold Demo.test_rag_system_body. writes_only_tac. Qed.

Lemma writes_only_test_tariff_calculator_body fmt calc :
  writes_only (Demo.test_tariff_calculator_body fmt calc).
Proof. unfold Demo.test_tariff_calculator_body. writes_only_tac. Qed.

Lemma writes_only_query_until_long ag queries :
  writes_only (Demo.query_until_long ag queries).
Proof.
  induction queries as [|q queries IH]; cbn [Demo.query_until_long];
    writes_only_tac; assumption.
Qed.

Lemma writes_only_test_agent_body ag :
  writes_only (Demo.test_agent_body ag).
Proof.
  unfold Demo.test_agent_body.
  pose proof writes_only_query_until_long.
  writes_only_tac.
Qed.

#[local] Hint Resolve writes_only_test_database_body
  writes_only_test_rag_system_body writes_only_test_tariff_calculator_body
  writes_only_test_agent_body : writes.

Lemma writes_only_test_database w : writes_only (Demo.test_database w).
Proof. unfold Demo.test_database. writes_only_tac. Qed.

Lemma writes_only_test_rag_system w : writes_only (Demo.test_rag_system w).
Proof. unfold Demo.test_rag_system. writes_only_tac. Qed.

Lemma writes_only_test_tariff_calculator fmt w :
  writes_only (Demo.test_tariff_calculator fmt w).
Proof. unfold Demo.test_tariff_calculator. writes_only_tac. Qed.

Lemma writes_only_test_agent w : writes_only (Demo.test_agent w).
Proof. unfold Demo.test_agent. writes_only_tac. Qed.

(** A result does not depend on what the console already holds. *)
Lemma writes_only_result {A} (m : M A) (c c' : Demo.console) :
  writes_only m -> fst (m c) = fst (m c').
Proof.
  intros H. destruct (H c) as [-> _]. destruct (H c') as [-> _]. done.
Qed.

(** ** demo.py: the two checks *)

(** C10: [check_dependencies] returns [True] exactly when pandas, sqlite3
    and streamlit all import; when the failing imports raise [ImportError]
    it goes through all three, logs a line for each module found and then
    one error naming every missing module, and returns whether none is
    missing.  [check_data_files] returns [True] exactly when both data
    files exist, and [False] otherwise. *)
Theorem check_dependencies_and_check_data_files
    (w : Demo.world) (c : Demo.console) :
  (fst (Demo.check_dependencies w c) = Return true <->
     importable w "pandas" = true /\ importable w "sqlite3" = true
     /\ importable w "streamlit" = true)
  /\ ((forall name e, Demo.import_ w name = Err e ->
         exn_import_error e = true) ->
      Demo.check_dependencies w c =
        (Return (bool_decide (missing_dependencies w = [])),
         c ++ available_lines w ++
           match missing_dependencies w with
           | [] => []
           | _ :: _ =>
               [Demo.Logged Demo.ERROR
                  ("Missing dependencies: "
                   +:+ join ", " (missing_dependencies w));
                Demo.Logged Demo.ERROR
                  "Please install with: pip install -r requirements.txt"]
           end))
  /\ (fst (Demo.check_data_files w c) = Return true <->
        "data/htsdata.csv" ∈ Demo.files w
        /\ "data/GeneralNotes.pdf" ∈ Demo.files w)
  /\ (fst (Demo.check_data_files w c) = Return false <->
        ~ ("data/htsdata.csv" ∈ Demo.files w
           /\ "data/GeneralNotes.pdf" ∈ Demo.files w)).
Proof.
  split; [|split].
  - unfold Demo.check_dependencies, Demo.import_or_record,
      try_except_ImportError, try_except_when, importable.
    destruct (Demo.import_ w "pandas") as [[]|[[] m1]];
      destruct (Demo.import_ w "sqlite3") as [[]|[[] m2]];
      destruct (Demo.import_ w "streamlit") as [[]|[[] m3]];
      cbn; intuition congruence.
  - intros Himp.
    unfold missing_dependencies, available_lines, dependencies, importable.
    unfold Demo.check_dependencies, Demo.import_or_record,
      try_except_ImportError, try_except_when.
    destruct (Demo.import_ w "pandas") as [[]|[[] m1]] eqn:E1;
      destruct (Demo.import_ w "sqlite3") as [[]|[[] m2]] eqn:E2;
      destruct (Demo.import_ w "streamlit") as [[]|[[] m3]] eqn:E3;
      try (apply Himp in E1; discriminate);
      try (apply Himp in E2; discriminate);
      try (apply Himp in E3; discriminate);
      cbn; rewrite E1, E2, E3; cbn;
      rewrite <- ?app_assoc; try rewrite app_nil_r; reflexivity.
  - unfold Demo.check_data_files, Demo.required_files.
    cbn [Demo.collect_missing]. unfold Demo.os_path_exists.
    do 2 case_bool_decide; cbn; split; intuition congruence.
Qed.

(** C10 on [bare_world]. *)
Lemma check_dependencies_and_check_data_files_witness :
  Demo.check_dependencies bare_world [] =
    (Return false,
     [Demo.Logged Demo.INFO "✅ SQLite3 available";
      Demo.Logged Demo.ERROR "Missing dependencies: pandas, streamlit";
      Demo.Logged Demo.ERROR
        "Please install with: pip install -r requirements.txt"]).
Proof.
  refine (eq_trans
    (proj1 (proj2 (check_dependencies_and_check_data_files bare_world []))
       _) _).
  - intros name e. cbn. destruct (String.eqb name "sqlite3"); [discriminate|].
    intros [= <-]. reflexivity.
  - reflexivity.
Defined.

(** ** demo.py: the component tests *)

(** The shape shared by the four tests: a body under
    [except Exception as e: logger.error(...); return False]. *)
Lemma guarded_test (body : M (S:=Demo.console) bool) (report : exn -> string)
    (c : Demo.console) :
  writes_only body ->
  let test := try_except body
                (fun e => Demo.logger_error (report e) ;> ret false) in
  (exists b, fst (test c) = Return b)
  /\ (forall e c', body c = (Raise e, c') -> fst (test c) = Return false).
Proof.
  intros Hw test. subst test. unfold try_except, try_except_when.
  destruct (Hw c) as [Hc Hns]. rewrite Hc in *.
  destruct (fst (body [])) as [b|e|] eqn:Eb; [| |done]; cbn.
  - split; [eauto|discriminate].
  - split; [eauto|done].
Qed.

(** A test that returns [False] had its body return [False] or raise. *)
Lemma guarded_test_false (body : M (S:=Demo.console) bool)
    (handler : exn -> M bool) (c : Demo.console) :
  fst (try_except body handler c) = Return false ->
  fst (body c) = Return false \/ exists e, fst (body c) = Raise e.
Proof.
  unfold try_except, try_except_when.
  destruct (body c) as [[b|e|] c']; cbn; eauto.
Qed.

(** C6, as amended: each of the four component tests catches every
    exception that is an instance of [Exception] raised by the component
    it exercises, and returns [False] in that case; whatever its calls
    return or raise of that kind it returns a boolean, and no such
    exception leaves it. *)
Theorem component_tests_catch_every_exception
    (format_comma_2f : Q -> string) (w : Demo.world) (c : Demo.console) :
  ((exists b, fst (Demo.test_database w c) = Return b)
   /\ (forall e c',
         Demo.test_database_body (Demo.database w) c = (Raise e, c') ->
         fst (Demo.test_database w c) = Return false))
  /\ ((exists b, fst (Demo.test_rag_system w c) = Return b)
      /\ (forall e c',
            Demo.test_rag_system_body (Demo.rag_system w) c = (Raise e, c') ->
            fst (Demo.test_rag_system w c) = Return false))
  /\ ((exists b,
         fst (Demo.test_tariff_calculator format_comma_2f w c) = Return b)
      /\ (forall e c',
            Demo.test_tariff_calculator_body format_comma_2f
              (Demo.tariff_calculator w) c = (Raise e, c') ->
            fst (Demo.test_tariff_calculator format_comma_2f w c)
            = Return false))
  /\ ((exists b, fst (Demo.test_agent w c) = Return b)
      /\ (forall e c',
            Demo.test_agent_body (Demo.agent w) c = (Raise e, c') ->
            fst (Demo.test_agent w c) = Return false)).
Proof.
  split; [|split; [|split]]; apply guarded_test; auto with writes.
Qed.

(** C6 on [broken_world], whose database module fails to import and whose
    bot raises on every query. *)
Lemma component_tests_catch_every_exception_witness :
  fst (Demo.test_database broken_world []) = Return false
  /\ fst (Demo.test_agent broken_world []) = Return false.
Proof.
  pose proof (component_tests_catch_every_exception
                (fun _ => "0.00") broken_world []) as (Hdb & _ & _ & Hag).
  split.
  - eapply (proj2 Hdb). reflexivity.
  - eapply (proj2 Hag). reflexivity.
Defined.

(** [test_database] is [test_database_over] at calls that return or raise
    an instance of [Exception]. *)
Lemma test_database_over_calls w :
  Demo.test_database w
  = Demo.test_database_over
      (call (Demo.database_import (Demo.database w)))
      (call (Demo.setup_database (Demo.database w)))
      (call (Demo.HTSDatabase (Demo.database w)))
      (call (Demo.HTSDataProcessor (Demo.database w)))
      (fun text limit =>
         call (Demo.search_hts_codes (Demo.database w) text limit))
      (call (Demo.close_connection (Demo.database w))).
Proof. reflexivity. Qed.

(** C6 as stated fails: [except Exception] does not catch a raise outside
    [Exception].  When [setup_database()] exits, [test_database] returns
    no boolean: the signal leaves it, after the banner alone. *)
Lemma test_database_lets_an_exit_through :
  Demo.test_database_over (ret tt) exits (ret tt) (ret tt)
    (fun _ _ => ret []) (ret tt) []
  = (Stopped, [Demo.Logged Demo.INFO "📊 Testing database..."]).
Proof. reflexivity. Qed.

(** The body of [test_database] returns [False] on one path only. *)
Lemma test_database_body_false db c :
  fst (Demo.test_database_body db c) = Return false ->
  Demo.database_import db = Ok tt /\ Demo.setup_database db = Ok false.
Proof.
  destruct db as [di sd hd hp sh cc].
  unfold Demo.test_database_body, bind, call, for_each; cbn.
  destruct di as [[]|?]; cbn; [|discriminate].
  destruct sd as [[|]|?]; cbn; [|done|discriminate].
  destruct hd as [[]|?]; cbn; [|discriminate].
  destruct hp as [[]|?]; cbn; [|discriminate].
  destruct (sh "asses" 3) as [[|r rs]|?]; cbn; [| |discriminate].
  - destruct cc as [[]|?]; cbn; discriminate.
  - unfold getitem.
    destruct (r !! "hts_number"); cbn; [|discriminate].
    destruct (r !! "description"); cbn; [|discriminate].
    destruct cc as [[]|?]; cbn; discriminate.
Qed.

(** A setup that reports failure makes the body return [False]. *)
Lemma test_database_body_setup_failed db c :
  Demo.database_import db = Ok tt ->
  Demo.setup_database db = Ok false ->
  fst (Demo.test_database_body db c) = Return false.
Proof.
  intros Hi Hs. unfold Demo.test_database_body, bind, call.
  rewrite Hi. cbn. rewrite Hs. reflexivity.
Qed.

(** C7: a search that finds nothing and an answer of 50 characters or
    fewer are normal outcomes, logged as warnings.  [test_database] returns
    [True] when the setup succeeds and the search for 'asses' is empty,
    after the warning that nothing was found; it returns [False] exactly
    when the setup reports failure or an exception was raised;
    [test_rag_system] returns [True] on a short answer, after the warning
    that the response is short. *)
Theorem empty_and_short_results_are_normal
    (w : Demo.world) (c : Demo.console) :
  (Demo.database_import (Demo.database w) = Ok tt ->
   Demo.setup_database (Demo.database w) = Ok true ->
   Demo.HTSDatabase (Demo.database w) = Ok tt ->
   Demo.HTSDataProcessor (Demo.database w) = Ok tt ->
   Demo.search_hts_codes (Demo.database w) "asses" 3 = Ok [] ->
   Demo.close_connection (Demo.database w) = Ok tt ->
   Demo.test_database w c
   = (Return true,
      c ++ [Demo.Logged Demo.INFO "📊 Testing database...";
            Demo.Logged Demo.WARNING
              "⚠️ No search results found, but database is functional"]))
  /\ (fst (Demo.test_database w c) = Return false <->
      (Demo.database_import (Demo.database w) = Ok tt
       /\ Demo.setup_database (Demo.database w) = Ok false)
      \/ exists e,
           fst (Demo.test_database_body (Demo.database w) c) = Raise e)
  /\ (forall result answer,
        Demo.rag_import (Demo.rag_system w) = Ok tt ->
        Demo.create_rag_system (Demo.rag_system w) = Ok tt ->
        Demo.rag_query (Demo.rag_system w)
          "What is the United States-Israel Free Trade Agreement?"
        = Ok result ->
        Demo.result_get result "answer" (Demo.Text "")
        = Ok (Demo.Text answer) ->
        len answer <= 50 ->
        Demo.test_rag_system w c
        = (Return true,
           c ++ [Demo.Logged Demo.INFO "📚 Testing RAG system...";
                 Demo.Logged Demo.WARNING
                   "⚠️ RAG system returned short response, but is functional"])).
Proof.
  split; [|split].
  - intros Hi Hs Hd Hp Hr Hc.
    unfold Demo.test_database, try_except, try_except_when,
      Demo.test_database_body, bind, call. cbn.
    rewrite Hi. cbn. rewrite Hs. cbn. rewrite Hd. cbn. rewrite Hp. cbn.
    rewrite Hr. cbn. rewrite Hc. cbn. by rewrite <- app_assoc.
  - split.
    + intros Hf. apply guarded_test_false in Hf as [Hf|Hf]; [left|by right].
      by eapply test_database_body_false.
    + intros [[Hi Hs]|[e He]].
      * pose proof (test_database_body_setup_failed _ c Hi Hs) as Hb.
        unfold Demo.test_database, try_except, try_except_when.
        destruct (Demo.test_database_body (Demo.database w) c) as [r c'].
        cbn in Hb. by rewrite Hb.
      * unfold Demo.test_database, try_except, try_except_when.
        destruct (Demo.test_database_body (Demo.database w) c) as [r c'].
        cbn in He. by rewrite He.
  - intros result answer Hi Hc Hq Hget Hlen.
    unfold Demo.test_rag_system, try_except, try_except_when,
      Demo.test_rag_system_body, bind, call.
    rewrite Hi. cbn -[Nat.ltb len]. rewrite Hc. cbn -[Nat.ltb len].
    rewrite Hq. cbn -[Nat.ltb len]. rewrite Hget. cbn -[Nat.ltb len].
    destruct (Nat.ltb_spec 50 (len answer)); [lia|].
    cbn. by rewrite <- app_assoc.
Qed.

(** C7 on [bare_world]: the search is empty and the answer is missing. *)
Lemma empty_and_short_results_are_normal_witness :
  fst (Demo.test_database bare_world []) = Return true
  /\ fst (Demo.test_rag_system bare_world []) = Return true.
Proof.
  pose proof (empty_and_short_results_are_normal bare_world [])
    as (Hdb & _ & Hrag).
  split.
  - rewrite Hdb; reflexivity.
  - rewrite (Hrag (Demo.AnswerDict ∅) "");
      [reflexivity..|vm_compute; lia].
Defined.

(** ** demo.py: the demo run *)

Lemma bind_writes_only {A B} (m : M (S:=Demo.console) A) (k : A -> M B) c :
  writes_only m ->
  bind m k c =
    match fst (m []) with
    | Return a => k a (c ++ snd (m []))
    | Raise e => (Raise e, c ++ snd (m []))
    | Stopped => (Stopped, c ++ snd (m []))
    end.
Proof.
  intros H. unfold bind. destruct (H c) as [-> _].
  by destruct (fst (m [])).
Qed.

Lemma tests_started_app c1 c2 :
  tests_started (c1 ++ c2) = tests_started c1 ++ tests_started c2.
Proof. apply flat_map_app. Qed.

(** The checks log no test banner. *)
Lemma tests_started_check_dependencies w :
  tests_started (snd (Demo.check_dependencies w [])) = [].
Proof.
  unfold Demo.check_dependencies, Demo.import_or_record,
    try_except_ImportError, try_except_when.
  destruct (Demo.import_ w "pandas") as [[]|[[] m1]];
    destruct (Demo.import_ w "sqlite3") as [[]|[[] m2]];
    destruct (Demo.import_ w "streamlit") as [[]|[[] m3]];
    reflexivity.
Qed.

Lemma tests_started_check_data_files w :
  tests_started (snd (Demo.check_data_files w [])) = [].
Proof.
  unfold Demo.check_data_files, Demo.required_files.
  cbn [Demo.collect_missing]. unfold Demo.os_path_exists.
  do 2 case_bool_decide; reflexivity.
Qed.

(** Each component test logs its own banner first, and no other. *)
Lemma tests_started_test_database w :
  tests_started (snd (Demo.test_database w [])) = ["📊 Testing database..."].
Proof.
  destruct w as [? ? [di sd hd hp sh cc] ? ? ?].
  unfold Demo.test_database, try_except, try_except_when,
    Demo.test_database_body, bind, call, for_each; cbn.
  destruct di as [[]|?]; cbn; [|reflexivity].
  destruct sd as [[|]|?]; cbn; [|reflexivity..].
  destruct hd as [[]|?]; cbn; [|reflexivity].
  destruct hp as [[]|?]; cbn; [|reflexivity].
  destruct (sh "asses" 3) as [[|r rs]|?]; cbn; [| |reflexivity].
  - destruct cc as [[]|?]; reflexivity.
  - unfold getitem.
    destruct (r !! "hts_number"); cbn; [|reflexivity].
    destruct (r !! "description"); cbn; [|reflexivity].
    destruct cc as [[]|?]; reflexivity.
Qed.

Lemma tests_started_test_rag_system w :
  tests_started (snd (Demo.test_rag_system w []))
  = ["📚 Testing RAG system..."].
Proof.
  destruct w as [? ? ? [ri cr rq] ? ?].
  unfold Demo.test_rag_system, try_except, try_except_when,
    Demo.test_rag_system_body, bind, call; cbn -[Nat.ltb len].
  destruct ri as [[]|?]; cbn -[Nat.ltb len]; [|reflexivity].
  destruct cr as [[]|?]; cbn -[Nat.ltb len]; [|reflexivity].
  destruct (rq _) as [[d|t]|?]; cbn -[Nat.ltb len]; [|reflexivity..].
  destruct (d !! "answer") as [[a|t]|]; cbn -[Nat.ltb len];
    [|reflexivity|]; destruct (50 <? _)%nat; reflexivity.
Qed.

Lemma tests_started_test_tariff_calculator fmt w :
  tests_started (snd (Demo.test_tariff_calculator fmt w []))
  = ["🧮 Testing tariff calculator..."].
Proof.
  destruct w as [? ? ? ? [ti tc tn ct] ?].
  unfold Demo.test_tariff_calculator, try_except, try_except_when,
    Demo.test_tariff_calculator_body, bind, call; cbn.
  destruct ti as [[]|?]; cbn; [|reflexivity].
  destruct tc as [[]|?]; cbn; [|reflexivity].
  destruct (tn _) as [[]|?]; cbn; [|reflexivity].
  destruct (ct _) as [[[total amount]|]|?]; cbn; [|reflexivity..].
  destruct total as [total|?]; cbn; [|reflexivity].
  destruct amount as [amount|?]; reflexivity.
Qed.

Lemma query_until_long_quiet ag queries c :
  tests_started (snd (Demo.query_until_long ag queries c)) = tests_started c.
Proof.
  induction queries as [|q queries IH]; cbn -[Nat.ltb len].
  - by rewrite tests_started_app, app_nil_r.
  - unfold bind, call.
    destruct (Demo.bot_query ag q) as [response|?]; cbn -[Nat.ltb len];
      [|done].
    destruct (50 <? len response)%nat; [|done].
    cbn. by rewrite !tests_started_app, !app_nil_r.
Qed.

Lemma tests_started_test_agent w :
  tests_started (snd (Demo.test_agent w []))
  = ["🤖 Testing TariffBot agent..."].
Proof.
  destruct w as [? ? ? ? ? ag].
  unfold Demo.test_agent, try_except, try_except_when,
    Demo.test_agent_body; cbn [Demo.agent].
  unfold bind, call.
  destruct (Demo.agent_import ag) as [[]|?];
    cbn -[Demo.query_until_long]; [|reflexivity].
  destruct (Demo.create_tariff_bot ag) as [[]|?];
    cbn -[Demo.query_until_long]; [|reflexivity].
  pose proof (query_until_long_quiet ag Demo.test_queries
                [Demo.Logged Demo.INFO "🤖 Testing TariffBot agent..."])
    as Hq.
  destruct (Demo.query_until_long ag Demo.test_queries _) as [[[]|e|] c'];
    cbn -[tests_started] in *; rewrite ?tests_started_app, Hq; reflexivity.
Qed.

(** A component test returns a boolean and appends its output. *)
Lemma test_runs (body : M (S:=Demo.console) bool) (report : exn -> string)
    (c : Demo.console) :
  writes_only body ->
  let test := try_except body
                (fun e => Demo.logger_error (report e) ;> ret false) in
  exists b, fst (test []) = Return b /\ test c = (Return b, c ++ snd (test [])).
Proof.
  intros Hw test.
  assert (writes_only test) as Ht by (subst test; writes_only_tac).
  destruct (guarded_test body report [] Hw) as [[b Hb] _].
  exists b. split; [done|]. destruct (Ht c) as [-> _].
  fold test in Hb. by rewrite Hb.
Qed.

(** One turn of the loop over [tests], for a test that returns. *)
Lemma run_tests_cons name (t : M (S:=Demo.console) bool) rest results c b c' :
  t c = (Return b, c') ->
  Demo.run_tests ((name, t) :: rest) results c
  = Demo.run_tests rest (setitem results name b) c'.
Proof.
  intros Ht. cbn [Demo.run_tests].
  unfold bind at 1, try_except, try_except_when, bind at 1.
  by rewrite Ht.
Qed.

Lemma ends_quietly_ret {A} (a : A) : ends_quietly (ret a) a.
Proof. intros c. exists []. by rewrite app_nil_r. Qed.

Lemma ends_quietly_print line : ends_quietly (Demo.print line) tt.
Proof. intros c. by exists [Demo.Printed line]. Qed.

Lemma ends_quietly_bind {A B} (m : M A) (k : A -> M B) a b :
  ends_quietly m a -> ends_quietly (k a) b -> ends_quietly (bind m k) b.
Proof.
  intros Hm Hk c. destruct (Hm c) as (o1 & E1 & Q1).
  destruct (Hk (c ++ o1)) as (o2 & E2 & Q2).
  exists (o1 ++ o2). unfold bind. rewrite E1, E2, app_assoc.
  by rewrite tests_started_app, Q1, Q2.
Qed.

Lemma ends_quietly_for_each {A} (xs : list A) (body : A -> M unit) :
  (forall x, ends_quietly (body x) tt) -> ends_quietly (for_each xs body) tt.
Proof.
  intros Hb. induction xs as [|x xs IH]; cbn [for_each].
  - apply ends_quietly_ret.
  - eapply ends_quietly_bind; [apply Hb|apply IH].
Qed.

Lemma ends_quietly_summarize results :
  ends_quietly (Demo.summarize results)
    (0 <? sum_bools results.*2)%nat.
Proof.
  unfold Demo.summarize, Demo.print_summary.
  repeat first
    [ apply ends_quietly_ret
    | apply ends_quietly_print
    | apply ends_quietly_for_each; intros []
    | eapply ends_quietly_bind
    | match goal with
      | |- ends_quietly (if ?b then _ else _) _ => destruct b
      end ].
Qed.

Lemma test_database_runs w c :
  exists b, fst (Demo.test_database w []) = Return b
            /\ Demo.test_database w c
               = (Return b, c ++ snd (Demo.test_database w [])).
Proof. apply test_runs. auto with writes. Qed.

Lemma test_rag_system_runs w c :
  exists b, fst (Demo.test_rag_system w []) = Return b
            /\ Demo.test_rag_system w c
               = (Return b, c ++ snd (Demo.test_rag_system w [])).
Proof. apply test_runs. auto with writes. Qed.

Lemma test_tariff_calculator_runs fmt w c :
  exists b, fst (Demo.test_tariff_calculator fmt w []) = Return b
            /\ Demo.test_tariff_calculator fmt w c
               = (Return b, c ++ snd (Demo.test_tariff_calculator fmt w [])).
Proof. apply test_runs. auto with writes. Qed.

Lemma test_agent_runs w c :
  exists b, fst (Demo.test_agent w []) = Return b
            /\ Demo.test_agent w c
               = (Return b, c ++ snd (Demo.test_agent w [])).
Proof. apply test_runs. auto with writes. Qed.

(** What a run does, by the results of the two checks. *)
Lemma run_comprehensive_demo_cases fmt w c :
  exists r out,
    Demo.run_comprehensive_demo fmt w c = (r, c ++ out) /\
    match fst (Demo.check_dependencies w []) with
    | Return true =>
        match fst (Demo.check_data_files w []) with
        | Return true =>
            exists b1 b2 b3 b4,
              fst (Demo.test_database w []) = Return b1
              /\ fst (Demo.test_rag_system w []) = Return b2
              /\ fst (Demo.test_tariff_calculator fmt w []) = Return b3
              /\ fst (Demo.test_agent w []) = Return b4
              /\ r = Return (b1 || b2 || b3 || b4)
              /\ tests_started out = test_banners
        | Return false => r = Return false /\ tests_started out = []
        | _ => r <> Return true /\ tests_started out = []
        end
    | Return false => r = Return false /\ tests_started out = []
    | _ => r <> Return true /\ tests_started out = []
    end.
Proof.
  unfold Demo.run_comprehensive_demo.
  unfold bind at 1. cbn [Demo.print modify].
  unfold bind at 1. cbn [Demo.print modify].
  rewrite bind_writes_only by apply writes_only_check_dependencies.
  pose proof (tests_started_check_dependencies w) as Hd.
  destruct (writes_only_check_dependencies w []) as [_ Hnd].
  destruct (Demo.check_dependencies w []) as [[[|]|e|] od];
    cbn [fst snd negb] in *; [| | |done].
  - rewrite bind_writes_only by apply writes_only_check_data_files.
    pose proof (tests_started_check_data_files w) as Hf.
    destruct (writes_only_check_data_files w []) as [_ Hnf].
    destruct (Demo.check_data_files w []) as [[[|]|e|] of_];
      cbn [fst snd negb] in *; [| | |done].
    + set (c0 := (((c ++ _) ++ _) ++ od) ++ of_).
      destruct (test_database_runs w c0) as (b1 & R1 & E1).
      set (c1 := c0 ++ _) in E1.
      destruct (test_rag_system_runs w c1) as (b2 & R2 & E2).
      set (c2 := c1 ++ _) in E2.
      destruct (test_tariff_calculator_runs fmt w c2) as (b3 & R3 & E3).
      set (c3 := c2 ++ _) in E3.
      destruct (test_agent_runs w c3) as (b4 & R4 & E4).
      set (c4 := c3 ++ _) in E4.
      unfold bind at 1, Demo.tests.
      rewrite (run_tests_cons _ _ _ _ _ _ _ E1).
      rewrite (run_tests_cons _ _ _ _ _ _ _ E2).
      rewrite (run_tests_cons _ _ _ _ _ _ _ E3).
      rewrite (run_tests_cons _ _ _ _ _ _ _ E4).
      cbn [Demo.run_tests ret setitem String.eqb Ascii.eqb Bool.eqb].
      destruct (ends_quietly_summarize
                  [("Database", b1); ("RAG System", b2);
                   ("Tariff Calculator", b3); ("TariffBot Agent", b4)] c4)
        as (os & -> & Hs).
      eexists _, _. split.
      * f_equal. subst c4 c3 c2 c1 c0. rewrite <- !app_assoc. reflexivity.
      * exists b1, b2, b3, b4. repeat (split; [assumption|]). split.
        -- by destruct b1, b2, b3, b4.
        -- rewrite !tests_started_app, Hd, Hf, Hs.
           rewrite tests_started_test_database, tests_started_test_rag_system,
             tests_started_test_tariff_calculator, tests_started_test_agent.
           reflexivity.
    + eexists _, _. split.
      * unfold bind, Demo.print, modify, ret. f_equal.
        rewrite <- !app_assoc. reflexivity.
      * split; [done|]. by rewrite !tests_started_app, Hd, Hf.
    + eexists _, _. split.
      * f_equal. rewrite <- !app_assoc. reflexivity.
      * split; [done|]. by rewrite !tests_started_app, Hd, Hf.
  - eexists _, _. split.
    + unfold bind, Demo.print, modify, ret. f_equal.
      rewrite <- !app_assoc. reflexivity.
    + split; [done|]. by rewrite !tests_started_app, Hd.
  - eexists _, _. split.
    + f_equal. rewrite <- !app_assoc. reflexivity.
    + split; [done|]. by rewrite !tests_started_app, Hd.
Qed.

(** C9: the demo returns [True] exactly when both checks return [True] and
    at least one component test does.  When a check returns [False] the
    console shows no component test started; when both pass it shows the
    four of them started, in the order Database, RAG System, Tariff
    Calculator, TariffBot Agent, whatever the earlier ones returned. *)
Theorem run_comprehensive_demo_result
    (format_comma_2f : Q -> string) (w : Demo.world) (c : Demo.console) :
  (fst (Demo.run_comprehensive_demo format_comma_2f w c) = Return true <->
     fst (Demo.check_dependencies w c) = Return true
     /\ fst (Demo.check_data_files w c) = Return true
     /\ (fst (Demo.test_database w c) = Return true
         \/ fst (Demo.test_rag_system w c) = Return true
         \/ fst (Demo.test_tariff_calculator format_comma_2f w c)
            = Return true
         \/ fst (Demo.test_agent w c) = Return true))
  /\ exists out,
       snd (Demo.run_comprehensive_demo format_comma_2f w c) = c ++ out
       /\ (fst (Demo.check_dependencies w c) = Return false
           \/ fst (Demo.check_data_files w c) = Return false ->
           tests_started out = [])
       /\ (fst (Demo.check_dependencies w c) = Return true ->
           fst (Demo.check_data_files w c) = Return true ->
           tests_started out = test_banners).
Proof.
  rewrite (writes_only_result _ c [] (writes_only_check_dependencies w)).
  rewrite (writes_only_result _ c [] (writes_only_check_data_files w)).
  rewrite (writes_only_result _ c [] (writes_only_test_database w)).
  rewrite (writes_only_result _ c [] (writes_only_test_rag_system w)).
  rewrite (writes_only_result _ c []
             (writes_only_test_tariff_calculator format_comma_2f w)).
  rewrite (writes_only_result _ c [] (writes_only_test_agent w)).
  destruct (run_comprehensive_demo_cases format_comma_2f w c)
    as (r & out & -> & H). cbn [fst snd].
  destruct (fst (Demo.check_dependencies w [])) as [[|]|e|].
  - destruct (fst (Demo.check_data_files w [])) as [[|]|e|].
    + destruct H as (b1 & b2 & b3 & b4 & -> & -> & -> & -> & -> & Hs).
      split; [|exists out; intuition congruence].
      destruct b1, b2, b3, b4; cbn; intuition congruence.
    + destruct H as [-> Hs].
      split; [|exists out; intuition congruence]. intuition congruence.
    + destruct H as [Hr Hs].
      split; [|exists out; intuition congruence]. intuition congruence.
    + destruct H as [Hr Hs].
      split; [|exists out; intuition congruence]. intuition congruence.
  - destruct H as [-> Hs].
    split; [|exists out; intuition congruence]. intuition congruence.
  - destruct H as [Hr Hs].
    split; [|exists out; intuition congruence]. intuition congruence.
  - destruct H as [Hr Hs].
    split; [|exists out; intuition congruence]. intuition congruence.
Qed.

(** C9 on [broken_world], where both checks pass, the database test fails
    and the RAG test succeeds. *)
Lemma run_comprehensive_demo_result_witness :
  fst (Demo.run_comprehensive_demo (fun _ => "0.00") broken_world [])
  = Return true.
Proof.
  apply (proj1 (run_comprehensive_demo_result
                  (fun _ => "0.00") broken_world [])).
  split; [vm_compute; reflexivity|].
  split; [vm_compute; reflexivity|].
  right; left. vm_compute. reflexivity.
Defined.

(** ** frontend/app.py: the two query pages *)

Lemma render_renders e m k p :
  App.render e (App.Session m k p) = (Return tt, App.Session m k (p ++ [e])).
Proof. reflexivity. Qed.

Lemma display_message_renders x m k p :
  exists more,
    App.display_message x (App.Session m k p)
    = (Return tt, App.Session m k (p ++ more)).
Proof.
  unfold App.display_message, bind. rewrite render_renders.
  destruct (String.eqb (App.role x) "assistant");
    rewrite render_renders, <- app_assoc; eauto.
Qed.

(** Showing the transcript only renders. *)
Lemma display_messages_renders ms m k p :
  exists more,
    for_each ms App.display_message (App.Session m k p)
    = (Return tt, App.Session m k (p ++ more)).
Proof.
  revert p. induction ms as [|x ms IH]; intros p; cbn [for_each].
  - exists []. by rewrite app_nil_r.
  - unfold bind at 1.
    destruct (display_message_renders x m k p) as [m1 ->].
    destruct (IH (p ++ m1)) as [m2 ->].
    exists (m1 ++ m2). by rewrite app_assoc.
Qed.

(** What the chat page does with a run. *)
Lemma chat_interface_runs bot has_openai ui s :
  exists more,
    App.chat_interface bot has_openai ui s
    = (Return tt,
       App.Session
         (Some (default [] (App.messages s) ++
                if App.truthy (App.chat_input ui) then
                  [App.Message "user" (default "" (App.chat_input ui));
                   App.Message "assistant"
                     (reply chat_error_prefix bot
                        (default "" (App.chat_input ui)))]
                else []))
         (App.bot_cache s) (App.page s ++ more))
    /\ chat_notice has_openai ∈ more.
Proof.
  destruct s as [ms k p]. unfold App.chat_interface.
  unfold bind at 1. rewrite render_renders.
  unfold bind at 1.
  assert (exists n, n = chat_notice has_openai) as [n Hn] by eauto.
  replace (if has_openai then App.render _ else App.render _)
    with (App.render n) by (subst n; by destruct has_openai).
  rewrite render_renders.
  unfold bind at 1. rewrite render_renders.
  unfold bind at 1, get at 1. cbn [App.messages App.bot_cache App.page].
  unfold bind at 1.
  set (p0 := ((p ++ _) ++ _) ++ _).
  assert (exists ms0, ms0 = default [] ms /\
            (match ms with
             | Some _ => ret ()
             | None =>
                 modify (fun s => App.Session (Some [])
                                    (App.bot_cache s) (App.page s))
             end) (App.Session ms k p0)
            = (Return tt, App.Session (Some ms0) k p0))
    as (ms0 & Hms & ->) by (destruct ms; eauto).
  unfold bind at 1, get at 1. cbn [App.messages default from_option id].
  unfold bind at 1.
  destruct (display_messages_renders ms0 (Some ms0) k p0) as [shown ->].
  cbn [default] in Hms. rewrite <- Hms.
  unfold bind at 1. rewrite render_renders.
  destruct (App.chat_input ui) as [prompt|];
    cbn [App.truthy default from_option id].
  2:{ exists ([App.st_header "Chat with TariffBot"; n;
               App.st_write "Ask me anything about HTS tariffs, trade agreements, or duty calculations!"] ++ shown
              ++ [App.st_chat_input "Ask about HTS codes, tariffs, or trade agreements..."]).
      split.
      - unfold ret. subst p0. by rewrite app_nil_r, <- !app_assoc.
      - subst n. set_solver. }
  destruct (negb (String.eqb prompt "")).
  2:{ exists ([App.st_header "Chat with TariffBot"; n;
               App.st_write "Ask me anything about HTS tariffs, trade agreements, or duty calculations!"] ++ shown
              ++ [App.st_chat_input "Ask about HTS codes, tariffs, or trade agreements..."]).
      split.
      - unfold ret. subst p0. by rewrite app_nil_r, <- !app_assoc.
      - subst n. set_solver. }
  unfold bind at 1, App.messages_append at 1.
  cbn [App.messages App.bot_cache App.page].
  unfold bind at 1. rewrite render_renders.
  unfold bind at 1. rewrite render_renders.
  unfold bind at 1. rewrite render_renders.
  unfold bind at 1. rewrite render_renders.
  unfold bind at 1, try_except, try_except_when, call, reply.
  destruct (App.bot_query bot prompt) as [r|e]; cbn [ret raise];
    unfold bind at 1; rewrite render_renders;
    unfold App.messages_append; cbn [App.messages App.bot_cache App.page];
    eexists; (split;
      [ f_equal; f_equal;
        [ rewrite <- !app_assoc; reflexivity
        | subst p0; rewrite <- !app_assoc; cbn [app]; reflexivity ]
      | subst n; set_solver ]).
Qed.

(** One sample: the expander, and the answer when its button is pressed. *)
Lemma sample_block_runs bot has_openai ui i item m k p :
  exists more,
    App.sample_block bot has_openai ui i item (App.Session m k p)
    = (Return tt, App.Session m k (p ++ more))
    /\ (App.button ui ("sample_" +:+ pretty i) = true ->
        App.st_markdown
          (App.response_box (reply "Error: " bot (App.question item)))
          ∈ more
        /\ method_shown has_openai ∈ more).
Proof.
  unfold App.sample_block.
  unfold bind at 1. rewrite render_renders.
  unfold bind at 1. rewrite render_renders.
  unfold bind at 1. rewrite render_renders.
  destruct (App.button ui ("sample_" +:+ pretty i)).
  2:{ eexists. split; [unfold ret; by rewrite <- !app_assoc|done]. }
  unfold bind at 1. rewrite render_renders.
  unfold bind at 1, try_except, try_except_when, call, reply.
  destruct (App.bot_query bot (App.question item)) as [r|e]; cbn [ret raise];
    unfold bind at 1; rewrite render_renders;
    (replace (if has_openai then App.render _ else App.render _)
       with (App.render (method_shown has_openai))
       by (by destruct has_openai));
    rewrite render_renders;
    eexists; (split; [by rewrite <- !app_assoc|]);
    intros _; set_solver.
Qed.

(** The loop over the samples. *)
Lemma sample_blocks_run bot has_openai ui (l : list (nat * App.sample)) m k p :
  exists more,
    for_each l (fun '(i, item) => App.sample_block bot has_openai ui i item)
      (App.Session m k p)
    = (Return tt, App.Session m k (p ++ more))
    /\ (forall i item,
          (i, item) ∈ l ->
          App.button ui ("sample_" +:+ pretty i) = true ->
          App.st_markdown
            (App.response_box (reply "Error: " bot (App.question item)))
            ∈ more
          /\ method_shown has_openai ∈ more).
Proof.
  revert p. induction l as [|[j x] l IH]; intros p; cbn [for_each].
  - exists []. split; [by rewrite app_nil_r|]. intros ? ? H. inversion H.
  - unfold bind at 1.
    destruct (sample_block_runs bot has_openai ui j x m k p)
      as (m1 & -> & Hhead).
    destruct (IH (p ++ m1)) as (m2 & -> & Htail).
    exists (m1 ++ m2). split; [by rewrite app_assoc|].
    intros i item Hin Hb. apply elem_of_cons in Hin as [[= -> ->]|Hin].
    + destruct (Hhead Hb) as [Hm Hi]. clear Hhead Htail IH. set_solver.
    + destruct (Htail i item Hin Hb) as [Hm Hi]. clear Hhead Htail IH.
      set_solver.
Qed.

(** What the sample page does with a run. *)
Lemma sample_questions_interface_runs bot has_openai ui s :
  exists more,
    App.sample_questions_interface bot has_openai ui s
    = (Return tt,
       App.Session (App.messages s) (App.bot_cache s) (App.page s ++ more))
    /\ (forall i item,
          App.sample_questions !! i = Some item ->
          App.button ui ("sample_" +:+ pretty i) = true ->
          App.st_markdown
            (App.response_box (reply "Error: " bot (App.question item)))
            ∈ more
          /\ method_shown has_openai ∈ more).
Proof.
  destruct s as [m k p]. unfold App.sample_questions_interface.
  unfold bind at 1. rewrite render_renders.
  unfold bind at 1.
  assert (exists n, forall q,
            (if has_openai
             then App.render (App.st_success
               "🤖 These questions will be answered using OpenAI LLM with HTS General Notes content")
             else App.render (App.st_warning
               "📄 These questions will be answered using basic text extraction"))
              (App.Session m k q)
            = (Return tt, App.Session m k (q ++ [n])))
    as [n ->] by (destruct has_openai; eauto).
  unfold bind at 1. rewrite render_renders.
  match goal with
  | |- context [for_each ?l _ (App.Session m k ?q)] =>
      destruct (sample_blocks_run bot has_openai ui l m k q)
        as (more & -> & Hall)
  end.
  eexists. split; [cbn [App.messages App.bot_cache App.page];
                   by rewrite <- !app_assoc|].
  intros i item Hi Hb.
  destruct (Hall i item (elem_of_lookup_imap_2 pair _ _ _ Hi) Hb) as [Hm Hs].
  clear Hall. set_solver.
Qed.

(** ** frontend/app.py: initialisation and [main] *)

(** The body of [initialize_bot] returns a pair, whatever its calls do:
    the bot and no error, or no bot and the text of the exception. *)
Lemma initialize_bot_body_runs w :
  exists r more,
    (forall m k p,
       App.initialize_bot_body w (App.Session m k p)
       = (Return r, App.Session m k (p ++ more)))
    /\ ((exists bot, r = (Some bot, None)
                     /\ App.create_tariff_bot w = Ok bot)
        \/ (exists msg, r = (None, Some msg))).
Proof.
  destruct w as [env fs ia id sd ct].
  unfold App.initialize_bot_body, try_except, try_except_when, bind, call.
  cbn [App.agent_real_llm_import App.database_import App.setup_database
       App.create_tariff_bot App.files].
  destruct ia as [[]|e1]; cbn [ret raise].
  2:{ eexists _, []. split; [intros; by rewrite app_nil_r|eauto]. }
  destruct id as [[]|e2]; cbn [ret raise].
  2:{ eexists _, []. split; [intros; by rewrite app_nil_r|eauto]. }
  destruct (negb (bool_decide ("data/hts_data.db" ∈ fs))).
  - destruct sd as [b|e3]; cbn [ret raise App.render modify
                                 App.messages App.bot_cache App.page].
    2:{ eexists _, _. split; [intros; reflexivity|eauto]. }
    destruct ct as [bot|e4]; cbn [ret raise].
    + eexists _, _. split; [intros; by rewrite <- app_assoc|eauto].
    + eexists _, _. split; [intros; by rewrite <- app_assoc|eauto].
  - cbn [ret raise App.render modify App.messages App.bot_cache App.page].
    destruct ct as [bot|e4]; cbn [ret raise].
    + eexists _, _. split; [intros; reflexivity|eauto].
    + eexists _, _. split; [intros; reflexivity|eauto].
Qed.

(** [initialize_bot] never raises; its result depends on the cache alone,
    and is what the cache holds afterwards. *)
Lemma initialize_bot_runs w k :
  exists r more,
    forall m p,
      App.initialize_bot w (App.Session m k p)
      = (Return r, App.Session m (Some r) (p ++ more)).
Proof.
  unfold App.initialize_bot, bind, get.
  cbn [App.messages App.bot_cache App.page].
  destruct k as [cached|].
  - exists cached, []. intros. unfold ret. by rewrite app_nil_r.
  - destruct (initialize_bot_body_runs w) as (r & more & Hb & _).
    exists r, more. intros. by rewrite Hb.
Qed.

(** The notice [main] shows about the API key. *)
Lemma key_notice_renders w m k p :
  exists n,
    (if App.check_openai_setup w then
       App.render (App.st_markdown ("<div class=" +:+ App.quoted "success-box"
         +:+ ">✅ <strong>OpenAI API Key Detected</strong> - Full LLM functionality enabled</div>"))
     else App.render (App.st_markdown App.api_key_box))
      (App.Session m k p)
    = (Return tt, App.Session m k (p ++ [n]))
    /\ (App.check_openai_setup w = false -> n = App.st_markdown App.api_key_box).
Proof.
  destruct (App.check_openai_setup w); eexists; split; try reflexivity; done.
Qed.

(** [main] up to the choice of the page: it stops when [initialize_bot]
    reports an error text, and goes on to the selected page otherwise. *)
Lemma main_runs guide about w ui m k p :
  exists r shown,
    fst (App.initialize_bot w (App.Session m k p)) = Return r
    /\ (App.check_openai_setup w = false ->
        App.st_markdown App.api_key_box ∈ shown)
    /\ App.main guide about w ui (App.Session m k p)
       = if App.truthy (snd r) then
           (Stopped,
            App.Session m (Some r)
              (p ++ shown ++
               [App.st_error ("Failed to initialize TariffBot: "
                              +:+ default "" (snd r))]))
         else
           (if String.eqb (App.selectbox ui) "💬 Chat with TariffBot" then
              App.chat_interface (fst r) (App.check_openai_setup w) ui
            else if String.eqb (App.selectbox ui) "📚 Sample Questions" then
              App.sample_questions_interface (fst r)
                (App.check_openai_setup w) ui
            else if String.eqb (App.selectbox ui) "🔧 Setup Guide" then
              App.setup_guide_interface guide w
            else if String.eqb (App.selectbox ui) "ℹ️ About" then
              App.about_interface about
            else ret tt)
             (App.Session m (Some r)
                (p ++ shown ++
                 [App.st_sidebar_title "Navigation";
                  App.st_sidebar_selectbox "Choose Mode" App.modes])).
Proof.
  destruct (initialize_bot_runs w k) as (r & more & Hi).
  unfold App.main.
  unfold bind at 1. rewrite render_renders.
  unfold bind at 1. rewrite render_renders.
  unfold bind at 1.
  match goal with
  | |- context [App.Session m k ?q] =>
      destruct (key_notice_renders w m k q) as (n & -> & Hn)
  end.
  match goal with
  | |- context [App.Session m k (((p ++ ?a) ++ ?b) ++ [n])] =>
      exists r, (a ++ b ++ [n] ++ more)
  end.
  split; [by rewrite Hi|]. split.
  { intros Hk. rewrite (Hn Hk). set_solver. }
  unfold bind at 1. rewrite Hi. destruct r as [bot error]. cbn [fst snd].
  destruct (App.truthy error).
  - unfold bind, stop. rewrite render_renders.
    rewrite <- !app_assoc. reflexivity.
  - unfold bind at 1, ret at 1. unfold bind at 1. rewrite render_renders.
    unfold bind at 1. rewrite render_renders.
    rewrite <- !app_assoc. reflexivity.
Qed.

(** How a run of [main] ends and what it leaves in the transcript, from
    what [initialize_bot] returned and what the user did: the API key plays
    no part. *)
Lemma main_outcome guide about w ui m k p :
  exists r,
    fst (App.initialize_bot w (App.Session m k p)) = Return r
    /\ fst (App.main guide about w ui (App.Session m k p))
       = (if App.truthy (snd r) then Stopped else Return tt)
    /\ App.messages (snd (App.main guide about w ui (App.Session m k p)))
       = if App.truthy (snd r) then m
         else if String.eqb (App.selectbox ui) "💬 Chat with TariffBot" then
           Some (default [] m ++
                 if App.truthy (App.chat_input ui) then
                   [App.Message "user" (default "" (App.chat_input ui));
                    App.Message "assistant"
                      (reply chat_error_prefix (fst r)
                         (default "" (App.chat_input ui)))]
                 else [])
         else m.
Proof.
  destruct (main_runs guide about w ui m k p) as (r & shown & Hr & _ & ->).
  exists r. split; [done|].
  destruct (App.truthy (snd r)); [done|].
  destruct (String.eqb (App.selectbox ui) "💬 Chat with TariffBot").
  { match goal with
    | |- context [App.chat_interface ?b ?h ui ?s] =>
        destruct (chat_interface_runs b h ui s) as (more & -> & _)
    end. done. }
  destruct (String.eqb (App.selectbox ui) "📚 Sample Questions").
  { match goal with
    | |- context [App.sample_questions_interface ?b ?h ui ?s] =>
        destruct (sample_questions_interface_runs b h ui s)
          as (more & -> & _)
    end. done. }
  destruct (String.eqb (App.selectbox ui) "🔧 Setup Guide").
  { unfold App.setup_guide_interface, bind. rewrite !render_renders.
    by destruct (App.check_openai_setup w). }
  destruct (String.eqb (App.selectbox ui) "ℹ️ About"); done.
Qed.

(** ** frontend/app.py: answers, provenance and the API key *)

Lemma append_nonempty (prefix s : string) : prefix <> "" -> prefix +:+ s <> "".
Proof. destruct prefix; [done|discriminate]. Qed.

(** C1, as amended: neither query page lets an instance of [Exception]
    through.  A prompt submitted on the chat page, or a sample button
    pressed, gets one answer string: the text the bot returned, as it is
    and so non-empty whenever that text is, or a non-empty message built
    from the exception the bot raised.  The answer carries no
    provenance. *)
Theorem query_pages_never_raise
    (bot : option App.TariffBot) (has_openai : bool) (ui : App.widgets)
    (s : App.session) :
  (exists s',
     App.chat_interface bot has_openai ui s = (Return tt, s')
     /\ (App.truthy (App.chat_input ui) = true ->
         App.messages s'
         = Some (default [] (App.messages s) ++
                 [App.Message "user" (default "" (App.chat_input ui));
                  App.Message "assistant"
                    (reply chat_error_prefix bot
                       (default "" (App.chat_input ui)))])))
  /\ (exists s',
        App.sample_questions_interface bot has_openai ui s = (Return tt, s')
        /\ (forall i item,
              App.sample_questions !! i = Some item ->
              App.button ui ("sample_" +:+ pretty i) = true ->
              App.st_markdown
                (App.response_box (reply "Error: " bot (App.question item)))
                ∈ App.page s'))
  /\ (forall q,
        match App.bot_query bot q with
        | Ok r =>
            reply chat_error_prefix bot q = r /\ reply "Error: " bot q = r
        | Err e =>
            reply chat_error_prefix bot q = chat_error_prefix +:+ exn_str e
            /\ reply "Error: " bot q = "Error: " +:+ exn_str e
            /\ reply chat_error_prefix bot q <> ""
            /\ reply "Error: " bot q <> ""
        end).
Proof.
  split; [|split].
  - destruct (chat_interface_runs bot has_openai ui s) as (more & -> & _).
    eexists. split; [reflexivity|]. intros Ht. cbn [App.messages].
    by rewrite Ht.
  - destruct (sample_questions_interface_runs bot has_openai ui s)
      as (more & -> & Hall).
    eexists. split; [reflexivity|]. intros i item Hi Hb. cbn [App.page].
    destruct (Hall i item Hi Hb) as [Hm _]. clear Hall. set_solver.
  - intros q. unfold reply. destruct (App.bot_query bot q) as [r|e].
    + done.
    + repeat split; by apply append_nonempty.
Qed.

(** C1 on a prompt submitted to a bot that raises. *)
Lemma query_pages_never_raise_witness :
  App.messages
    (snd (App.chat_interface (Some failing_bot) true
            (asks "What's the HTS code for donkeys?") fresh))
  = Some [App.Message "user" "What's the HTS code for donkeys?";
          App.Message "assistant"
            "I encountered an error processing your question: Connection error."].
Proof.
  destruct (proj1 (query_pages_never_raise (Some failing_bot) true
                     (asks "What's the HTS code for donkeys?") fresh))
    as (s' & -> & H).
  exact (H eq_refl).
Defined.

(** [chat_interface] is [chat_interface_over] at a call that returns or
    raises an instance of [Exception]. *)
Lemma chat_interface_over_calls bot has_openai ui :
  App.chat_interface bot has_openai ui
  = App.chat_interface_over (fun q => call (App.bot_query bot q))
      has_openai ui.
Proof. reflexivity. Qed.

(** C1 as stated fails: [except Exception] does not catch a raise outside
    [Exception].  When [bot.query] is interrupted, the chat page ends with
    the signal: the prompt is in the transcript, no answer follows, and
    nothing at the interface turns the signal into one. *)
Lemma chat_page_lets_an_interrupt_through :
  App.chat_interface_over (fun _ => exits) true
    (asks "What's the HTS code for donkeys?") fresh
  = (Stopped,
     App.Session
       (Some [App.Message "user" "What's the HTS code for donkeys?"])
       None
       [App.st_header "Chat with TariffBot";
        App.st_success
          "🤖 Using OpenAI LLM for intelligent responses from HTS General Notes";
        App.st_write
          "Ask me anything about HTS tariffs, trade agreements, or duty calculations!";
        App.st_chat_input
          "Ask about HTS codes, tariffs, or trade agreements...";
        App.st_chat_message "user";
        App.st_markdown "What's the HTS code for donkeys?";
        App.st_chat_message "assistant";
        App.st_spinner "Generating response with LLM..."]).
Proof. reflexivity. Qed.

(** [check_openai_setup] reads the environment and nothing else. *)
Lemma check_openai_setup_iff w :
  App.check_openai_setup w = true
  <-> is_Some (App.environ w !! "OPENAI_API_KEY").
Proof.
  unfold App.check_openai_setup, App.os_getenv.
  destruct (App.environ w !! "OPENAI_API_KEY").
  - split; [eauto|done].
  - split; [done|]. by intros [? ?].
Qed.

(** C2, as amended: when [main] reaches the chat page, a submitted prompt
    appends exactly one user message and then one assistant message to
    the transcript, and a run without a prompt appends nothing; a message
    holds a role and a content.  The method the chat page and the sample
    page announce is the one [check_openai_setup] gives, that is, whether
    OPENAI_API_KEY is set: it is the same whatever the bot returned or
    raised. *)
Theorem one_answer_per_prompt
    (setup_guide_text about_text : string) (w : App.world)
    (ui : App.widgets) (s : App.session) (r : App.bot_and_error) :
  fst (App.initialize_bot w s) = Return r ->
  App.truthy (snd r) = false ->
  (App.check_openai_setup w = true
   <-> is_Some (App.environ w !! "OPENAI_API_KEY"))
  /\ (App.selectbox ui = "💬 Chat with TariffBot" ->
      exists s',
        App.main setup_guide_text about_text w ui s = (Return tt, s')
        /\ App.messages s'
           = Some (default [] (App.messages s) ++
                   if App.truthy (App.chat_input ui) then
                     [App.Message "user" (default "" (App.chat_input ui));
                      App.Message "assistant"
                        (reply chat_error_prefix (fst r)
                           (default "" (App.chat_input ui)))]
                   else [])
        /\ chat_notice (App.check_openai_setup w) ∈ App.page s')
  /\ (App.selectbox ui = "📚 Sample Questions" ->
      exists s',
        App.main setup_guide_text about_text w ui s = (Return tt, s')
        /\ App.messages s' = App.messages s
        /\ (forall i item,
              App.sample_questions !! i = Some item ->
              App.button ui ("sample_" +:+ pretty i) = true ->
              App.st_markdown
                (App.response_box
                   (reply "Error: " (fst r) (App.question item)))
                ∈ App.page s'
              /\ method_shown (App.check_openai_setup w) ∈ App.page s')).
Proof.
  intros Hinit Herr. split; [apply check_openai_setup_iff|].
  destruct s as [m k p].
  destruct (main_runs setup_guide_text about_text w ui m k p)
    as (r0 & shown & Hr & _ & Hrun).
  rewrite Hinit in Hr. injection Hr as <-. rewrite Herr in Hrun.
  split.
  - intros Hmode. rewrite Hmode in Hrun.
    rewrite String.eqb_refl in Hrun.
    match type of Hrun with
    | _ = App.chat_interface ?b ?h ui ?s0 =>
        destruct (chat_interface_runs b h ui s0) as (more & Hc & Hn)
    end.
    rewrite Hc in Hrun. eexists. split; [exact Hrun|].
    cbn [App.messages App.page]. split; [done|]. set_solver.
  - intros Hmode. rewrite Hmode in Hrun.
    replace (String.eqb "📚 Sample Questions" "💬 Chat with TariffBot")
      with false in Hrun by reflexivity.
    rewrite String.eqb_refl in Hrun.
    match type of Hrun with
    | _ = App.sample_questions_interface ?b ?h ui ?s0 =>
        destruct (sample_questions_interface_runs b h ui s0)
          as (more & Hc & Hall)
    end.
    rewrite Hc in Hrun. eexists. split; [exact Hrun|].
    cbn [App.messages App.page]. split; [done|].
    intros i item Hi Hb. destruct (Hall i item Hi Hb) as [Hm Hl].
    clear Hall. set_solver.
Qed.

(** C2 on the first sample button, with the key set. *)
Lemma one_answer_per_prompt_witness :
  method_shown true
  ∈ App.page
      (snd (App.main "" "" (installation (Some "sk-test") (Ok echo_bot))
              (clicks "sample_0") fresh)).
Proof.
  destruct (one_answer_per_prompt "" ""
              (installation (Some "sk-test") (Ok echo_bot))
              (clicks "sample_0") fresh (Some echo_bot, None)
              eq_refl eq_refl) as (_ & _ & H).
  destruct (H eq_refl) as (s' & -> & _ & Hall).
  exact (proj2 (Hall 0 _ eq_refl eq_refl)).
Defined.

(** C2 as stated fails: with the API key set and a bot whose call raises,
    the sample page shows the converted error and names the LLM as what
    generated it, and the chat page answers with the converted error
    under the notice that the LLM is in use. *)
Lemma converted_error_is_labelled_generated :
  let w := installation (Some "sk-test") (Ok failing_bot) in
  let question :=
    "What is the United States-Israel Free Trade Agreement?" in
  App.check_openai_setup w = true
  /\ App.bot_query (Some failing_bot) question
     = Err (Exn false "Connection error.")
  /\ (let page :=
        App.page (snd (App.main "" "" w (clicks "sample_0") fresh)) in
      page !! 13 = Some (App.st_markdown
                           (App.response_box "Error: Connection error."))
      /\ page !! 14 = Some (App.st_info
           "✅ Response generated using OpenAI LLM with HTS General Notes content"))
  /\ (let page :=
        App.page (snd (App.main "" "" w (asks question) fresh)) in
      page !! 7 = Some (App.st_success
           "🤖 Using OpenAI LLM for intelligent responses from HTS General Notes")
      /\ page !! 13 = Some (App.st_spinner "Generating response with LLM...")
      /\ page !! 14 = Some (App.st_markdown
           (App.response_box
              "I encountered an error processing your question: Connection error."))).
Proof. repeat split; reflexivity. Qed.
(** [main] stops before any page when [initialize_bot] reports an error
    text that is not empty: the transcript is left as it was. *)
Lemma main_stops_on_error_text guide about w ui s msg :
  fst (App.initialize_bot w s) = Return (None, Some msg) ->
  msg <> "" ->
  exists s',
    App.main guide about w ui s = (Stopped, s')
    /\ App.messages s' = App.messages s
    /\ App.st_error ("Failed to initialize TariffBot: " +:+ msg)
       ∈ App.page s'.
Proof.
  intros Hi Hm. destruct s as [m k p].
  destruct (main_runs guide about w ui m k p) as (r & shown & Hr & _ & ->).
  rewrite Hi in Hr. injection Hr as <-. cbn [fst snd App.truthy].
  destruct (String.eqb_spec msg ""); [done|]. cbn [negb].
  eexists. split; [reflexivity|]. split; [reflexivity|].
  cbn [App.page default from_option id]. set_solver.
Qed.


(** C5, as amended: [check_openai_setup] returns [True] exactly when
    OPENAI_API_KEY is set, and app.py gates nothing on it: for the same
    results of the collaborators' calls, whether [main] stops or returns
    and what it leaves in the transcript is the same whatever the
    environment holds.  When the key is not set, [main] shows the notice
    about the key and calls [initialize_bot] all the same; if the bot is
    initialised, [main] returns normally, and a prompt on the chat page
    gets its answer under the text-extraction warning, as does a pressed
    sample button; if [initialize_bot] reports a failure with a text that
    is not empty, [main] stops, with or without the key, and the
    transcript is left as it was. *)
Theorem missing_api_key_does_not_prevent_answering
    (setup_guide_text about_text : string)
    (w : App.world) (ui : App.widgets) (s : App.session)
    (bot : App.TariffBot) :
  (App.check_openai_setup w = true
   <-> is_Some (App.environ w !! "OPENAI_API_KEY"))
  /\ (forall env,
        fst (App.main setup_guide_text about_text (with_environ env w) ui s)
        = fst (App.main setup_guide_text about_text w ui s)
        /\ App.messages
             (snd (App.main setup_guide_text about_text
                     (with_environ env w) ui s))
           = App.messages
               (snd (App.main setup_guide_text about_text w ui s)))
  /\ (App.check_openai_setup w = false ->
      fst (App.initialize_bot w s) = Return (Some bot, None) ->
      exists s',
        App.main setup_guide_text about_text w ui s = (Return tt, s')
        /\ App.st_markdown App.api_key_box ∈ App.page s'
        /\ (App.selectbox ui = "💬 Chat with TariffBot" ->
            chat_notice false ∈ App.page s'
            /\ App.messages s'
               = Some (default [] (App.messages s) ++
                       if App.truthy (App.chat_input ui) then
                         [App.Message "user" (default "" (App.chat_input ui));
                          App.Message "assistant"
                            (reply chat_error_prefix (Some bot)
                               (default "" (App.chat_input ui)))]
                       else []))
        /\ (App.selectbox ui = "📚 Sample Questions" ->
            forall i item,
              App.sample_questions !! i = Some item ->
              App.button ui ("sample_" +:+ pretty i) = true ->
              App.st_markdown
                (App.response_box
                   (reply "Error: " (Some bot) (App.question item)))
                ∈ App.page s'))
  /\ (forall msg,
        fst (App.initialize_bot w s) = Return (None, Some msg) ->
        msg <> "" ->
        exists s',
          App.main setup_guide_text about_text w ui s = (Stopped, s')
          /\ App.messages s' = App.messages s
          /\ App.st_error ("Failed to initialize TariffBot: " +:+ msg)
             ∈ App.page s').
Proof.
  split; [|split; [|split]]; [| | |apply main_stops_on_error_text].
  - unfold App.check_openai_setup, App.os_getenv.
    destruct (App.environ w !! "OPENAI_API_KEY").
    + split; [eauto|done].
    + split; [done|]. by intros [? ?].
  - intros env. destruct s as [m k p].
    destruct (main_outcome setup_guide_text about_text
                (with_environ env w) ui m k p) as (r' & Hr' & -> & ->).
    destruct (main_outcome setup_guide_text about_text w ui m k p)
      as (r & Hr & -> & ->).
    change (App.initialize_bot (with_environ env w))
      with (App.initialize_bot w) in Hr'.
    rewrite Hr in Hr'. by injection Hr' as <-.
  - intros Hk Hb. destruct s as [m k p].
    destruct (main_runs setup_guide_text about_text w ui m k p)
      as (r & shown & Hr & Hshown & ->).
    rewrite Hb in Hr. injection Hr as <-. cbn [fst snd App.truthy].
    specialize (Hshown Hk). rewrite Hk.
    destruct (String.eqb_spec (App.selectbox ui) "💬 Chat with TariffBot")
      as [Hc|Hc]; cbv beta iota.
    { destruct (chat_interface_runs (Some bot) false ui
                  (App.Session m (Some (Some bot, None))
                     (p ++ shown ++
                      [App.st_sidebar_title "Navigation";
                       App.st_sidebar_selectbox "Choose Mode" App.modes])))
        as (more & Hrun & Hn).
      eexists. split; [exact Hrun|]. cbn [App.messages App.page].
      split; [set_solver|]. split; [intros _; split; [set_solver|done]|].
      intros Hs. rewrite Hs in Hc. discriminate. }
    destruct (String.eqb_spec (App.selectbox ui) "📚 Sample Questions")
      as [Hq|Hq]; cbv beta iota.
    { destruct (sample_questions_interface_runs (Some bot) false ui
                  (App.Session m (Some (Some bot, None))
                     (p ++ shown ++
                      [App.st_sidebar_title "Navigation";
                       App.st_sidebar_selectbox "Choose Mode" App.modes])))
        as (more & Hrun & Hall).
      eexists. split; [exact Hrun|]. cbn [App.messages App.page].
      split; [clear Hall; set_solver|]. split; [done|].
      intros _ i item Hi Hbt. destruct (Hall i item Hi Hbt) as [Hm _].
      clear Hall. set_solver. }
    destruct (String.eqb (App.selectbox ui) "🔧 Setup Guide"); cbv beta iota.
    { eexists.
      unfold App.setup_guide_interface, bind. rewrite !render_renders, Hk.
      rewrite render_renders. split; [reflexivity|]. cbn [App.page].
      split; [set_solver|]. done. }
    destruct (String.eqb (App.selectbox ui) "ℹ️ About"); cbv beta iota.
    { eexists.
      unfold App.about_interface, bind. rewrite !render_renders. split; [reflexivity|]. cbn [App.page].
      split; [set_solver|]. done. }
    eexists. split; [reflexivity|]. cbn [App.page].
    split; [set_solver|]. done.
Qed.

(** C5 on an installation without the key whose bot answers. *)
Lemma missing_api_key_does_not_prevent_answering_witness :
  App.messages
    (snd (App.main "" "" (installation None (Ok echo_bot))
            (asks "What's the HTS code for donkeys?") fresh))
  = Some [App.Message "user" "What's the HTS code for donkeys?";
          App.Message "assistant"
            "You asked: What's the HTS code for donkeys?"].
Proof.
  destruct (proj1 (proj2 (proj2
              (missing_api_key_does_not_prevent_answering "" ""
                 (installation None (Ok echo_bot))
                 (asks "What's the HTS code for donkeys?") fresh
                 echo_bot))) eq_refl eq_refl)
    as (s' & -> & _ & H & _).
  exact (proj2 (H eq_refl)).
Defined.

(** C5 as stated fails: without the key, a bot that cannot be built leaves
    nothing to answer with.  [main] shows the error and stops: the prompt
    is not served and the transcript is not even created. *)
Lemma no_key_and_no_bot_stops_main :
  let w :=
    installation None
      (Err (Exn false "The api_key client option must be set")) in
  let run := App.main "" "" w (asks "What's the HTS code for donkeys?")
               fresh in
  App.check_openai_setup w = false
  /\ fst run = Stopped
  /\ App.messages (snd run) = None
  /\ last (App.page (snd run))
     = Some (App.st_error
               "Failed to initialize TariffBot: The api_key client option must be set").
Proof. repeat split; reflexivity. Qed.

(** C8 fails on an exception whose text is empty: [initialize_bot] returns
    [(None, "")], the test [if error] does not fire, [main] goes on to the
    chat page with no bot, and the prompt is answered with the converted
    [AttributeError]. *)
Theorem empty_error_text_does_not_stop_main
    (setup_guide_text about_text : string) :
  let w := installation (Some "sk-test") (Err (Exn false "")) in
  let prompt := "What's the HTS code for donkeys?" in
  fst (App.initialize_bot w fresh) = Return (None, Some "")
  /\ fst (App.main setup_guide_text about_text w (asks prompt) fresh)
     = Return tt
  /\ App.messages
       (snd (App.main setup_guide_text about_text w (asks prompt) fresh))
     = Some [App.Message "user" prompt;
             App.Message "assistant"
               "I encountered an error processing your question: 'NoneType' object has no attribute 'query'"].
Proof. repeat split; vm_compute; reflexivity. Qed.

(** ** The orchestrator and the generator wrapper *)

(** C4: for one request the wrapper calls the generator once or twice.  A
    first call that succeeds, or that fails with an authentication or quota
    error, is the only one; a first call that fails with a network error or
    a timeout is followed by exactly one more, whose result is final. *)
Theorem generator_wrapper_calls
    (generate : nat -> string -> string -> Orchestrator.failure + string)
    (max_context : nat) (query passages : string) :
  let context := slice_to max_context passages in
  let run := Orchestrator.invoke_generator generate max_context
               query passages [] in
  1 <= length (snd run) <= 2
  /\ (forall text,
        generate 0 query context = inr text ->
        run = (Return (inr text), [(query, context)]))
  /\ (forall f,
        generate 0 query context = inl f ->
        Orchestrator.transient f = false ->
        run = (Return (inl f), [(query, context)]))
  /\ (forall f,
        generate 0 query context = inl f ->
        Orchestrator.transient f = true ->
        run = (Return (generate 1 query context),
               [(query, context); (query, context)])).
Proof.
  intros context run. subst run context.
  unfold Orchestrator.invoke_generator, bind, Orchestrator.call_generator.
  cbn [length app].
  destruct (generate 0 query (slice_to max_context passages)) as [f|text].
  - destruct (Orchestrator.transient f) eqn:Et; cbn [ret snd length app].
    + split; [lia|]. split; [discriminate|]. split.
      * intros ? [= <-]. congruence.
      * by intros ? [= <-] _.
    + split; [lia|]. split; [discriminate|]. split.
      * by intros ? [= <-] _.
      * intros ? [= <-]. congruence.
  - cbn [ret snd length app]. split; [lia|]. split.
    + by intros ? [= <-].
    + split; discriminate.
Qed.

(** C4 on a generator whose first call times out and whose second call
    answers, and on one that refuses the credential. *)
Lemma generator_wrapper_calls_witness :
  Orchestrator.invoke_generator flaky_generator 4000
    "What is GSP?" "General Note 4." []
  = (Return (inr "GSP is the Generalized System of Preferences."),
     [("What is GSP?", "General Note 4.");
      ("What is GSP?", "General Note 4.")])
  /\ Orchestrator.invoke_generator locked_generator 4000
       "What is GSP?" "General Note 4." []
     = (Return (inl Orchestrator.auth_error),
        [("What is GSP?", "General Note 4.")]).
Proof.
  split.
  - apply (proj2 (proj2 (proj2 (generator_wrapper_calls flaky_generator 4000
             "What is GSP?" "General Note 4."))) Orchestrator.timeout);
      reflexivity.
  - apply (proj1 (proj2 (proj2 (generator_wrapper_calls locked_generator 4000
             "What is GSP?" "General Note 4."))) Orchestrator.auth_error);
      reflexivity.
Defined.

(** The informational path never labels its answer [database]. *)
Lemma informational_not_database retrieve generate K min_length max_context q :
  Orchestrator.tag
    (Orchestrator.informational retrieve generate K min_length max_context q)
  <> Orchestrator.database.
Proof.
  unfold Orchestrator.informational, Orchestrator.local_fallback,
    Orchestrator.unable.
  destruct (retrieve q K) as [passages|e]; [|done].
  destruct (fst (Orchestrator.invoke_generator _ _ _ _ _)) as [[f|t]|e|];
    try (destruct (take K passages); done).
  destruct (len t <? min_length)%nat; [|done].
  destruct (take K passages); done.
Qed.

(** C3: a structured lookup for which the Database Accessor returns no
    record is answered by the informational path, and the answer is not
    labelled [database]. *)
Theorem empty_lookup_falls_through
    (is_structured_lookup : string -> bool)
    (search : string -> nat -> call_result (list Orchestrator.CandidateRecord))
    (retrieve : string -> nat ->
                call_result (list Orchestrator.RetrievedPassage))
    (generate : nat -> string -> string -> Orchestrator.failure + string)
    (compose : list Orchestrator.CandidateRecord -> string)
    (limit K min_length max_context : nat) (query : string) :
  is_structured_lookup query = true ->
  search query limit = Ok [] ->
  Orchestrator.answer is_structured_lookup search retrieve generate compose
    limit K min_length max_context query
  = Orchestrator.informational retrieve generate K min_length max_context
      query
  /\ Orchestrator.tag
       (Orchestrator.answer is_structured_lookup search retrieve generate
          compose limit K min_length max_context query)
     <> Orchestrator.database.
Proof.
  intros Hs He. unfold Orchestrator.answer. rewrite Hs, He.
  split; [reflexivity|apply informational_not_database].
Qed.

(** C3 on a catalog with no unicorns and a document that mentions them. *)
Lemma empty_lookup_falls_through_witness :
  Orchestrator.answer (fun _ => true) (fun _ _ => Ok [])
    (fun _ _ => Ok [unicorn_passage]) flaky_generator
    (fun _ => "records") 3 3 20 4000 "HTS code for unicorns"
  = {| Orchestrator.text := "GSP is the Generalized System of Preferences.";
       Orchestrator.tag := Orchestrator.generated |}.
Proof.
  refine (eq_trans (proj1 (empty_lookup_falls_through (fun _ => true)
    (fun _ _ => Ok []) (fun _ _ => Ok [unicorn_passage]) flaky_generator
    (fun _ => "records") 3 3 20 4000 "HTS code for unicorns"
    eq_refl eq_refl)) _).
  reflexivity.
Defined.

(** ** demo.py: further properties *)

(** What [check_dependencies] does with one import. *)
Lemma import_or_record_runs w name ok_msg missing c :
  Demo.import_or_record w name ok_msg missing c =
    match Demo.import_ w name with
    | Ok _ => (Return missing, c ++ [Demo.Logged Demo.INFO ok_msg])
    | Err e =>
        if exn_import_error e then (Return (missing ++ [name]), c)
        else (Raise e, c)
    end.
Proof.
  unfold Demo.import_or_record, try_except_ImportError, try_except_when,
    bind, call.
  destruct (Demo.import_ w name) as [[]|e]; cbn; [done|].
  by destruct (exn_import_error e).
Qed.

(** X1: [check_dependencies] handles [ImportError] only.  The first import
    that raises anything else ends the check with that exception, and the
    demo with it: nothing around the check catches it, and no component
    test starts. *)
Theorem unexpected_import_failure_escapes
    (format_comma_2f : Q -> string) (w : Demo.world) (c : Demo.console)
    (i : nat) (name : string) (e : exn) :
  dependency_names !! i = Some name ->
  Demo.import_ w name = Err e ->
  exn_import_error e = false ->
  (forall j earlier,
     j < i -> dependency_names !! j = Some earlier ->
     handled_import w earlier) ->
  fst (Demo.check_dependencies w c) = Raise e
  /\ fst (Demo.run_comprehensive_demo format_comma_2f w c) = Raise e
  /\ exists out,
       snd (Demo.run_comprehensive_demo format_comma_2f w c) = c ++ out
       /\ tests_started out = [].
Proof.
  intros Hi He Hc Hearlier.
  assert (exists out,
            Demo.check_dependencies w [] = (Raise e, out)) as [od Hd].
  { unfold Demo.check_dependencies. unfold bind.
    rewrite !import_or_record_runs.
    destruct i as [|[|[|i]]]; cbn in Hi; try done; injection Hi as <-.
    - rewrite He, Hc. eauto.
    - pose proof (Hearlier 0 "pandas" ltac:(lia) eq_refl) as H0.
      destruct (Demo.import_ w "pandas") as [[]|e0] eqn:E0.
      + rewrite import_or_record_runs, He, Hc. eauto.
      + rewrite (H0 e0 E0), import_or_record_runs, He, Hc. eauto.
    - pose proof (Hearlier 0 "pandas" ltac:(lia) eq_refl) as H0.
      pose proof (Hearlier 1 "sqlite3" ltac:(lia) eq_refl) as H1.
      destruct (Demo.import_ w "pandas") as [[]|e0] eqn:E0;
        [|rewrite (H0 e0 E0)];
        rewrite import_or_record_runs;
        (destruct (Demo.import_ w "sqlite3") as [[]|e1] eqn:E1;
         [|rewrite (H1 e1 E1)]);
        rewrite import_or_record_runs, He, Hc; eauto. }
  split.
  { rewrite (writes_only_result _ c [] (writes_only_check_dependencies w)).
    by rewrite Hd. }
  destruct (run_comprehensive_demo_cases format_comma_2f w c)
    as (r & out & Hrun & Hcases).
  rewrite Hd in Hcases. cbn [fst] in Hcases.
  assert (r = Raise e) as ->.
  { revert Hrun. unfold Demo.run_comprehensive_demo.
    unfold bind at 1. cbn [Demo.print modify].
    unfold bind at 1. cbn [Demo.print modify].
    rewrite bind_writes_only by apply writes_only_check_dependencies.
    rewrite Hd. cbn [fst snd]. by intros [= <- _]. }
  rewrite Hrun. split; [done|]. exists out. by destruct Hcases.
Qed.

(** X1 on an installation whose pandas is broken. *)
Lemma unexpected_import_failure_escapes_witness :
  fst (Demo.run_comprehensive_demo (fun _ => "0.00") broken_pandas [])
  = Raise (Exn false "module 'numpy' has no attribute 'float'").
Proof.
  apply (unexpected_import_failure_escapes (fun _ => "0.00") broken_pandas []
           0 "pandas" (Exn false "module 'numpy' has no attribute 'float'")).
  - reflexivity.
  - reflexivity.
  - reflexivity.
  - intros j earlier Hj. lia.
Defined.

(** The loop of [check_data_files] keeps what it was given and adds the
    paths that do not exist, in order. *)
Lemma collect_missing_filter w todo missing :
  Demo.collect_missing w todo missing
  = missing ++ List.filter (fun p => negb (Demo.os_path_exists w p)) todo.
Proof.
  revert missing. induction todo as [|p todo IH]; intros missing; cbn.
  - by rewrite app_nil_r.
  - destruct (negb (Demo.os_path_exists w p)); rewrite IH; [|done].
    by rewrite <- app_assoc.
Qed.

(** X2: [check_data_files] never raises and writes exactly one line: the
    confirmation when both files exist, and otherwise an error that names
    every missing file, in the order of [required_files]. *)
Theorem check_data_files_reports_every_missing_file
    (w : Demo.world) (c : Demo.console) :
  let missing :=
    List.filter (fun p => negb (bool_decide (p ∈ Demo.files w)))
      Demo.required_files in
  Demo.check_data_files w c =
    match missing with
    | [] =>
        (Return true,
         c ++ [Demo.Logged Demo.INFO "✅ All required data files found"])
    | _ :: _ =>
        (Return false,
         c ++ [Demo.Logged Demo.ERROR
                 ("Missing data files: " +:+ join ", " missing)])
    end.
Proof.
  intros missing. unfold Demo.check_data_files.
  rewrite collect_missing_filter. cbn [app].
  change (List.filter _ Demo.required_files) with missing.
  by destruct missing.
Qed.

(** X3: [test_database] returns [True] exactly when the import, the setup,
    the two constructors, the search and [close_connection] all return,
    the setup reports success, and the first record found, if there is
    one, has both the keys 'hts_number' and 'description'.  The records
    after the first are never looked at. *)
Theorem test_database_passes_iff (w : Demo.world) (c : Demo.console) :
  fst (Demo.test_database w c) = Return true <->
    Demo.database_import (Demo.database w) = Ok tt
    /\ Demo.setup_database (Demo.database w) = Ok true
    /\ Demo.HTSDatabase (Demo.database w) = Ok tt
    /\ Demo.HTSDataProcessor (Demo.database w) = Ok tt
    /\ (exists results,
          Demo.search_hts_codes (Demo.database w) "asses" 3 = Ok results
          /\ forall first, head results = Some first ->
               is_Some (first !! "hts_number")
               /\ is_Some (first !! "description"))
    /\ Demo.close_connection (Demo.database w) = Ok tt.
Proof.
  destruct w as [? ? [di sd hd hp sh cc] ? ? ?].
  unfold Demo.test_database, try_except, try_except_when,
    Demo.test_database_body, bind, call, for_each; cbn.
  destruct di as [[]|?]; cbn; [|split; [discriminate|by intros [? _]]].
  destruct sd as [[|]|?]; cbn;
    [|split; [discriminate|by intros (_ & ? & _)]..].
  destruct hd as [[]|?]; cbn; [|split; [discriminate|by intros (_ & _ & ? & _)]].
  destruct hp as [[]|?]; cbn;
    [|split; [discriminate|by intros (_ & _ & _ & ? & _)]].
  destruct (sh "asses" 3) as [[|r rs]|?]; cbn.
  - destruct cc as [[]|?]; cbn.
    + split; [|done]. intros _. repeat (split; [done|]).
      split; [|done]. exists []. split; [done|]. intros ?. discriminate.
    + split; [discriminate|]. by intros (_ & _ & _ & _ & _ & ?).
  - unfold getitem.
    destruct (r !! "hts_number") eqn:Eh; cbn.
    2:{ split; [discriminate|].
        intros (_ & _ & _ & _ & (results & [= <-] & Hk) & _).
        destruct (Hk r eq_refl) as [[? Hx] _]. congruence. }
    destruct (r !! "description") eqn:Ed; cbn.
    2:{ split; [discriminate|].
        intros (_ & _ & _ & _ & (results & [= <-] & Hk) & _).
        destruct (Hk r eq_refl) as [_ [? Hx]]. congruence. }
    destruct cc as [[]|?]; cbn.
    + split; [|done]. intros _. repeat (split; [done|]).
      split; [|done]. exists (r :: rs). split; [done|].
      intros ? [= <-]. rewrite Eh, Ed. eauto.
    + split; [discriminate|]. by intros (_ & _ & _ & _ & _ & ?).
  - split; [discriminate|].
    by intros (_ & _ & _ & _ & (results & ? & _) & _).
Qed.

(** X4: [test_rag_system] returns [True] exactly when the import, the
    constructor and the query return, the result has a [get] method, and
    what it gives under 'answer' is a text (the model knows answers that
    are texts and answers that have no length).  A dict without the key
    'answer' is read as an empty answer and passes with the warning about
    a short response; an answer without a length, such as [None], makes
    [len] raise and the test return [False]. *)
Theorem test_rag_system_passes_iff (w : Demo.world) (c : Demo.console) :
  let question :=
    "What is the United States-Israel Free Trade Agreement?" in
  (fst (Demo.test_rag_system w c) = Return true <->
     Demo.rag_import (Demo.rag_system w) = Ok tt
     /\ Demo.create_rag_system (Demo.rag_system w) = Ok tt
     /\ exists result answer,
          Demo.rag_query (Demo.rag_system w) question = Ok result
          /\ Demo.result_get result "answer" (Demo.Text "")
             = Ok (Demo.Text answer))
  /\ (forall answers,
        Demo.rag_import (Demo.rag_system w) = Ok tt ->
        Demo.create_rag_system (Demo.rag_system w) = Ok tt ->
        Demo.rag_query (Demo.rag_system w) question
        = Ok (Demo.AnswerDict answers) ->
        answers !! "answer" = None ->
        Demo.test_rag_system w c
        = (Return true,
           c ++ [Demo.Logged Demo.INFO "📚 Testing RAG system...";
                 Demo.Logged Demo.WARNING
                   "⚠️ RAG system returned short response, but is functional"]))
  /\ (forall answers type_name,
        Demo.rag_import (Demo.rag_system w) = Ok tt ->
        Demo.create_rag_system (Demo.rag_system w) = Ok tt ->
        Demo.rag_query (Demo.rag_system w) question
        = Ok (Demo.AnswerDict answers) ->
        answers !! "answer" = Some (Demo.Lengthless type_name) ->
        Demo.test_rag_system w c
        = (Return false,
           c ++ [Demo.Logged Demo.INFO "📚 Testing RAG system...";
                 Demo.Logged Demo.ERROR
                   ("❌ RAG system test failed: object of type '"
                    +:+ type_name +:+ "' has no len()")])).
Proof.
  intros question. subst question. destruct w as [? ? ? [ri cr rq] ? ?].
  unfold Demo.test_rag_system, try_except, try_except_when,
    Demo.test_rag_system_body, bind, call; cbn -[Nat.ltb len].
  split; [|split].
  - destruct ri as [[]|?]; cbn -[Nat.ltb len];
      [|split; [discriminate|by intros [? _]]].
    destruct cr as [[]|?]; cbn -[Nat.ltb len];
      [|split; [discriminate|by intros (_ & ? & _)]].
    destruct (rq _) as [[d|t]|?]; cbn -[Nat.ltb len].
    + destruct (d !! "answer") as [[a|t]|] eqn:Hd; cbn -[Nat.ltb len].
      * assert (Hget : Demo.result_get (Demo.AnswerDict d) "answer"
                         (Demo.Text "") = Ok (Demo.Text a))
          by (cbn; by rewrite Hd).
        destruct (50 <? _)%nat; cbn; (split; [|done]); intros _;
          do 2 (split; [done|]); by eexists _, _.
      * split; [discriminate|].
        intros (_ & _ & result & answer & [= <-] & Hget).
        cbn in Hget. rewrite Hd in Hget. discriminate.
      * assert (Hget : Demo.result_get (Demo.AnswerDict d) "answer"
                         (Demo.Text "") = Ok (Demo.Text ""))
          by (cbn; by rewrite Hd).
        destruct (50 <? _)%nat; cbn; (split; [|done]); intros _;
          do 2 (split; [done|]); by eexists _, _.
    + split; [discriminate|].
      intros (_ & _ & result & answer & [= <-] & Hget). discriminate.
    + split; [discriminate|]. by intros (_ & _ & ? & ? & ? & _).
  - intros answers -> -> -> Hnone. cbn -[Nat.ltb len].
    rewrite Hnone. cbn. by rewrite <- app_assoc.
  - intros answers type_name -> -> -> Hsome. cbn -[Nat.ltb len].
    rewrite Hsome. cbn. by rewrite <- app_assoc.
Qed.

(** X4 on a RAG system whose result has no answer, and on one whose answer
    is [None]. *)
Lemma test_rag_system_passes_iff_witness :
  Demo.test_rag_system bare_world []
  = (Return true,
     [Demo.Logged Demo.INFO "📚 Testing RAG system...";
      Demo.Logged Demo.WARNING
        "⚠️ RAG system returned short response, but is functional"])
  /\ Demo.test_rag_system none_answer_world []
     = (Return false,
        [Demo.Logged Demo.INFO "📚 Testing RAG system...";
         Demo.Logged Demo.ERROR
           "❌ RAG system test failed: object of type 'NoneType' has no len()"]).
Proof.
  split.
  - apply (proj1 (proj2 (test_rag_system_passes_iff bare_world [])) ∅);
      reflexivity.
  - apply (proj2 (proj2 (test_rag_system_passes_iff none_answer_world []))
             {["answer" := Demo.Lengthless "NoneType"]} "NoneType");
      reflexivity.
Defined.

(** X5: [test_tariff_calculator] returns [True] exactly when the import,
    the two constructors [HTSTariffCalculator()] and [TariffInput(...)]
    and [calculate_tariff] all return and, if the calculation gives a
    result, its total landed cost and its duty amount can both be read as
    numbers; a calculation that gives nothing still passes. *)
Theorem test_tariff_calculator_passes_iff
    (format_comma_2f : Q -> string) (w : Demo.world) (c : Demo.console) :
  fst (Demo.test_tariff_calculator format_comma_2f w c) = Return true <->
    Demo.tariff_calculator_import (Demo.tariff_calculator w) = Ok tt
    /\ Demo.HTSTariffCalculator (Demo.tariff_calculator w) = Ok tt
    /\ Demo.TariffInput_new (Demo.tariff_calculator w) Demo.test_input
       = Ok tt
    /\ exists result,
         Demo.calculate_tariff (Demo.tariff_calculator w) Demo.test_input
         = Ok result
         /\ forall found, result = Some found ->
              exists total amount,
                Demo.total_landed_cost found = Ok total
                /\ Demo.applicable_duty_amount found = Ok amount.
Proof.
  destruct w as [? ? ? ? [ti tc tn ct] ?].
  unfold Demo.test_tariff_calculator, try_except, try_except_when,
    Demo.test_tariff_calculator_body, bind, call; cbn.
  destruct ti as [[]|?]; cbn; [|split; [discriminate|by intros [? _]]].
  destruct tc as [[]|?]; cbn; [|split; [discriminate|by intros (_ & ? & _)]].
  destruct (tn _) as [[]|?]; cbn;
    [|split; [discriminate|by intros (_ & _ & ? & _)]].
  destruct (ct _) as [[[total amount]|]|?]; cbn.
  - destruct total as [total|?]; cbn.
    + destruct amount as [amount|?]; cbn.
      * split; [|done]. intros _. repeat (split; [done|]).
        eexists. split; [done|]. intros ? [= <-]. eauto.
      * split; [discriminate|].
        intros (_ & _ & _ & result & [= <-] & H).
        destruct (H _ eq_refl) as (? & ? & _ & ?). discriminate.
    + split; [discriminate|].
      intros (_ & _ & _ & result & [= <-] & H).
      destruct (H _ eq_refl) as (? & ? & ? & _). discriminate.
  - split; [|done]. intros _. repeat (split; [done|]).
    eexists. split; [done|]. intros ? ?. discriminate.
  - split; [discriminate|]. by intros (_ & _ & _ & ? & ? & _).
Qed.

(** The three lines logged for the response that ends the loop. *)
Lemma query_until_long_cases ag queries c :
  (exists pre q post response,
     queries = pre ++ q :: post
     /\ Forall (short_response ag) pre
     /\ Demo.bot_query ag q = Ok response /\ 50 < len response
     /\ Demo.query_until_long ag queries c
        = (Return tt,
           c ++ [Demo.Logged Demo.INFO
                   ("✅ Agent query working: " +:+ pretty (len response)
                    +:+ " character response");
                 Demo.Logged Demo.INFO ("   Query: " +:+ q);
                 Demo.Logged Demo.INFO
                   ("   Sample: " +:+ slice_to 100 response +:+ "...")]))
  \/ (exists pre q post e,
        queries = pre ++ q :: post
        /\ Forall (short_response ag) pre
        /\ Demo.bot_query ag q = Err e
        /\ Demo.query_until_long ag queries c = (Raise e, c))
  \/ (Forall (short_response ag) queries
      /\ Demo.query_until_long ag queries c
         = (Return tt,
            c ++ [Demo.Logged Demo.WARNING
                    "⚠️ Agent responses are short, but functional"])).
Proof.
  induction queries as [|q queries IH]; cbn -[Nat.ltb len].
  - right; right. by split.
  - unfold bind, call.
    destruct (Demo.bot_query ag q) as [response|e] eqn:Eq;
      cbn -[Nat.ltb len].
    2:{ right; left. exists [], q, queries, e. by repeat split. }
    destruct (Nat.ltb_spec 50 (len response)) as [Hlong|Hshort].
    { left. exists [], q, queries, response. repeat split; try done.
      unfold Demo.logger_info, modify. cbn. by rewrite <- !app_assoc. }
    assert (short_response ag q) as Hq by (exists response; by split).
    destruct IH as [(pre & q' & post & r & -> & Hpre & Hr & Hl & ->)
                   |[(pre & q' & post & e & -> & Hpre & He & ->)
                    |(Hall & ->)]].
    + left. exists (q :: pre), q', post, r. repeat split; try done.
      by constructor.
    + right; left. exists (q :: pre), q', post, e. repeat split; try done.
      by constructor.
    + right; right. split; [by constructor|done].
Qed.

(** A query with a short response is neither long nor failing. *)
Lemma short_response_inv ag q :
  short_response ag q ->
  exists response,
    Demo.bot_query ag q = Ok response /\ (50 <? len response)%nat = false.
Proof.
  intros (response & Hq & Hlen). exists response. split; [done|].
  by apply Nat.ltb_ge.
Qed.

Lemma query_until_long_skips_short ag pre rest c :
  Forall (short_response ag) pre ->
  Demo.query_until_long ag (pre ++ rest) c
  = Demo.query_until_long ag rest c.
Proof.
  induction 1 as [|q pre Hq _ IH]; [done|]. cbn -[Nat.ltb len].
  destruct (short_response_inv ag q Hq) as (response & Eq & El).
  unfold bind at 1, call. rewrite Eq. cbn -[Nat.ltb len]. by rewrite El.
Qed.

(** X6: the loop of [test_agent] stops at the first response longer than
    50 characters: the queries after it are not sent, so what they would
    return or raise does not matter.  A query that raises before any long
    response ends the loop with that exception, and when every response is
    short the loop ends with the warning. *)
Theorem agent_loop_stops_at_first_long_response
    (ag : Demo.agent_module) (pre post : list string) (q : string)
    (c : Demo.console) :
  Forall (short_response ag) pre ->
  (forall response,
     Demo.bot_query ag q = Ok response -> 50 < len response ->
     Demo.query_until_long ag (pre ++ q :: post) c
     = (Return tt,
        c ++ [Demo.Logged Demo.INFO
                ("✅ Agent query working: " +:+ pretty (len response)
                 +:+ " character response");
              Demo.Logged Demo.INFO ("   Query: " +:+ q);
              Demo.Logged Demo.INFO
                ("   Sample: " +:+ slice_to 100 response +:+ "...")]))
  /\ (forall e,
        Demo.bot_query ag q = Err e ->
        Demo.query_until_long ag (pre ++ q :: post) c = (Raise e, c))
  /\ Demo.query_until_long ag pre c
     = (Return tt,
        c ++ [Demo.Logged Demo.WARNING
                "⚠️ Agent responses are short, but functional"]).
Proof.
  intros Hpre. split; [|split].
  - intros response Hq Hlong. rewrite query_until_long_skips_short by done.
    cbn -[Nat.ltb len]. unfold bind at 1, call. rewrite Hq.
    cbn -[Nat.ltb len].
    destruct (Nat.ltb_spec 50 (len response)); [|lia].
    unfold bind, Demo.logger_info, modify. cbn. by rewrite <- !app_assoc.
  - intros e Hq. rewrite query_until_long_skips_short by done.
    cbn -[Nat.ltb len]. unfold bind at 1, call. by rewrite Hq.
  - rewrite <- (app_nil_r pre) at 1.
    by rewrite query_until_long_skips_short.
Qed.

(** X6 on a bot that answers the first query briefly, the second at
    length, and would fail on the third. *)
Lemma agent_loop_stops_at_first_long_response_witness :
  fst (Demo.query_until_long moody_agent Demo.test_queries []) = Return tt.
Proof.
  pose proof (agent_loop_stops_at_first_long_response moody_agent
    ["What is the United States-Israel Free Trade Agreement?"]
    ["How is classification determined for manufacturing items?"]
    "What's the HTS code for donkeys?" []) as H.
  destruct H as [H _].
  - constructor; [|constructor]. exists "See General Note 8.".
    split; [reflexivity|vm_compute; lia].
  - exact (f_equal fst (H _ eq_refl ltac:(vm_compute; lia))).
Defined.

(** A query that raises after short responses only leaves no room for a
    long response before it. *)
Lemma no_long_response_before_failure ag pre q post e pre' q' post' :
  pre ++ q :: post = pre' ++ q' :: post' ->
  Forall (short_response ag) pre ->
  Demo.bot_query ag q = Err e ->
  Forall (short_response ag) pre' ->
  long_response ag q' = true ->
  False.
Proof.
  intros Heq Hpre He. revert pre' Heq.
  induction Hpre as [|x pre Hx Hpre IH]; intros pre' Heq Hpre' Hlong.
  - destruct pre' as [|y pre']; cbn in Heq; injection Heq as -> ?.
    + unfold long_response in Hlong. by rewrite He in Hlong.
    + apply Forall_cons in Hpre' as [(r & Hr & _) _]. congruence.
  - destruct pre' as [|y pre']; cbn in Heq; injection Heq as -> ?.
    + destruct (short_response_inv ag _ Hx) as (r & Hr & Hn).
      unfold long_response in Hlong. rewrite Hr in Hlong. congruence.
    + apply Forall_cons in Hpre' as [_ Hpre']. by eapply IH.
Qed.

(** X7: [test_agent] returns [True] exactly when the import and
    [create_tariff_bot] return and no query raises before the loop ends,
    that is, before the first response longer than 50 characters. *)
Theorem test_agent_passes_iff (w : Demo.world) (c : Demo.console) :
  fst (Demo.test_agent w c) = Return true <->
    Demo.agent_import (Demo.agent w) = Ok tt
    /\ Demo.create_tariff_bot (Demo.agent w) = Ok tt
    /\ (Forall (short_response (Demo.agent w)) Demo.test_queries
        \/ exists pre q post,
             Demo.test_queries = pre ++ q :: post
             /\ Forall (short_response (Demo.agent w)) pre
             /\ long_response (Demo.agent w) q = true).
Proof.
  destruct w as [? ? ? ? ? ag]. cbn [Demo.agent].
  unfold Demo.test_agent, try_except, try_except_when, Demo.test_agent_body.
  cbn [Demo.agent]. unfold bind, call.
  destruct (Demo.agent_import ag) as [[]|?];
    cbn -[Demo.query_until_long Demo.test_queries];
    [|split; [discriminate|by intros [? _]]].
  destruct (Demo.create_tariff_bot ag) as [[]|?];
    cbn -[Demo.query_until_long Demo.test_queries];
    [|split; [discriminate|by intros (_ & ? & _)]].
  destruct (query_until_long_cases ag Demo.test_queries
              (c ++ [Demo.Logged Demo.INFO "🤖 Testing TariffBot agent..."]))
    as [(pre & q & post & r & Hq & Hpre & Hr & Hl & ->)
       |[(pre & q & post & e & Hq & Hpre & He & ->)
        |(Hall & ->)]]; cbn.
  - split; [|done]. intros _. repeat (split; [done|]). right.
    exists pre, q, post. repeat split; try done.
    unfold long_response. rewrite Hr. by apply Nat.ltb_lt.
  - split; [discriminate|]. intros (_ & _ & [Hall|Hex]).
    + rewrite Hq in Hall. apply Forall_app in Hall as [_ Hall].
      apply Forall_cons in Hall as [(r & Hr & _) _]. congruence.
    + destruct Hex as (pre' & q' & post' & Hq' & Hpre' & Hlong).
      rewrite Hq in Hq'. exfalso.
      by eapply (no_long_response_before_failure ag pre q post e pre').
  - split; [|done]. intros _. repeat (split; [done|]). by left.
Qed.

(** Assigning a key of [results] stores the value and keeps the others. *)
Lemma setitem_stored {V} (d : list (string * V)) k v :
  (k, v) ∈ setitem d k v.
Proof.
  induction d as [|[k' v'] d IH]; cbn; [apply list_elem_of_here|].
  destruct (String.eqb_spec k' k) as [->|].
  - apply list_elem_of_here.
  - by apply list_elem_of_further.
Qed.

Lemma setitem_kept {V} (d : list (string * V)) k v k' v' :
  k' <> k -> (k', v') ∈ d -> (k', v') ∈ setitem d k v.
Proof.
  intros Hne. induction d as [|[k0 v0] d IH]; cbn; intros Hel.
  - inversion Hel.
  - apply elem_of_cons in Hel as [[= -> ->]|Hel].
    + destruct (String.eqb_spec k0 k) as [->|]; [done|].
      apply list_elem_of_here.
    + destruct (String.eqb_spec k0 k) as [->|];
        apply list_elem_of_further; auto.
Qed.

Lemma writes_only_raise {A} (e : exn) : writes_only (raise (A:=A) e).
Proof. intros c. cbn. by rewrite app_nil_r. Qed.

(** One turn of the loop over [tests], whatever the test does. *)
Lemma run_tests_turn name (t : M (S:=Demo.console) bool) rest results c :
  writes_only t ->
  exists out,
    Demo.run_tests ((name, t) :: rest) results c
    = Demo.run_tests rest (setitem results name (recorded t)) (c ++ out).
Proof.
  intros Hw. cbn [Demo.run_tests].
  unfold bind at 1, try_except, try_except_when, bind at 1, recorded.
  destruct (Hw c) as [-> Hns].
  destruct (fst (t [])) as [b|e|]; cbn; [eauto| |done].
  unfold bind, Demo.logger_error, modify, ret. rewrite <- app_assoc. eauto.
Qed.

(** A test that ends the interpreter ends the loop: [except Exception]
    does not catch the exit, and nothing is recorded for that test. *)
Lemma run_tests_exit name (t : M (S:=Demo.console) bool) rest results c c' :
  t c = (Stopped, c') ->
  Demo.run_tests ((name, t) :: rest) results c = (Stopped, c').
Proof.
  intros Ht. cbn [Demo.run_tests].
  unfold bind at 1, try_except, try_except_when, bind at 1.
  by rewrite Ht.
Qed.

Lemma run_tests_all_recorded
    (tests : list (string * M (S:=Demo.console) bool))
    (results : list (string * bool)) (c : Demo.console) :
  (forall name t, (name, t) ∈ tests -> writes_only t) ->
  NoDup tests.*1 ->
  exists results' out,
    Demo.run_tests tests results c = (Return results', c ++ out)
    /\ (forall name t, (name, t) ∈ tests -> (name, recorded t) ∈ results')
    /\ (forall k v, (k, v) ∈ results -> k ∉ tests.*1 -> (k, v) ∈ results').
Proof.
  revert results c. induction tests as [|[n t] tests IH];
    intros results c Hw Hnd.
  - exists results, []. cbn. rewrite app_nil_r.
    split; [done|]. split; [|done]. intros ? ? H. inversion H.
  - apply NoDup_cons in Hnd as [Hn Hnd]. cbn in Hn.
    destruct (run_tests_turn n t tests results c) as [o1 ->].
    { apply (Hw n t). apply list_elem_of_here. }
    destruct (IH (setitem results n (recorded t)) (c ++ o1))
      as (results' & o2 & -> & Hin & Hkeep); [|done|].
    { intros name t' Ht'. apply (Hw name t'). by apply list_elem_of_further. }
    exists results', (o1 ++ o2). split; [by rewrite app_assoc|]. split.
    + intros name t' Hel. apply elem_of_cons in Hel as [[= -> ->]|Hel].
      * apply Hkeep; [apply setitem_stored|done].
      * by eapply Hin.
    + intros k v Hk Hnk. cbn in Hnk. apply not_elem_of_cons in Hnk as [? ?].
      apply Hkeep; [|done]. by apply setitem_kept.
Qed.

(** X8: the loop of [run_comprehensive_demo] over its tests.  When every
    test only appends to the console and then returns or raises an
    instance of [Exception], the loop returns: a test that raises is
    logged and recorded as failed, the tests after it still run, and with
    distinct names every test ends up in [results] under its name with its
    own boolean.  A test that ends the interpreter instead (a raise
    outside [Exception], such as [SystemExit]) is not caught: the loop
    ends there, with the console as that test left it. *)
Theorem run_tests_records_every_test
    (tests : list (string * M (S:=Demo.console) bool))
    (results : list (string * bool)) (c : Demo.console) :
  ((forall name t, (name, t) ∈ tests -> writes_only t) ->
   NoDup tests.*1 ->
   exists results' out,
     Demo.run_tests tests results c = (Return results', c ++ out)
     /\ (forall name t, (name, t) ∈ tests -> (name, recorded t) ∈ results')
     /\ (forall k v, (k, v) ∈ results -> k ∉ tests.*1 -> (k, v) ∈ results'))
  /\ (forall name t rest c',
        tests = (name, t) :: rest ->
        t c = (Stopped, c') ->
        Demo.run_tests tests results c = (Stopped, c')).
Proof.
  split.
  - apply run_tests_all_recorded.
  - intros name t rest c' -> Ht. by apply run_tests_exit.
Qed.

(** X8 on a list of two tests, the first of which raises, and on the same
    list behind a test that exits. *)
Lemma run_tests_records_every_test_witness :
  (exists results' out,
     Demo.run_tests
       [("Crashing", raise (Exn false "boom")); ("Passing", ret true)] [] []
     = (Return results', [] ++ out)
     /\ ("Crashing", false) ∈ results' /\ ("Passing", true) ∈ results')
  /\ Demo.run_tests
       [("Exiting", exits); ("Crashing", raise (Exn false "boom"));
        ("Passing", ret true)] [] []
     = (Stopped, []).
Proof.
  split.
  - destruct (proj1 (run_tests_records_every_test
                [("Crashing", raise (Exn false "boom")); ("Passing", ret true)]
                [] []))
      as (results' & out & Hrun & Hin & _).
    + intros name t Hel.
      apply elem_of_cons in Hel as [[= -> ->]|Hel];
        [apply writes_only_raise|].
      apply elem_of_cons in Hel as [[= -> ->]|Hel]; [|inversion Hel].
      apply writes_only_ret.
    + apply NoDup_cons. split; [|apply NoDup_singleton]. cbn.
      rewrite elem_of_cons. intros [?|Hel]; [discriminate|inversion Hel].
    + exists results', out. split; [done|]. split.
      * apply (Hin "Crashing" (raise (Exn false "boom"))).
        apply list_elem_of_here.
      * apply (Hin "Passing" (ret true)).
        apply list_elem_of_further, list_elem_of_here.
  - apply (proj2 (run_tests_records_every_test
                    [("Exiting", exits); ("Crashing", raise (Exn false "boom"));
                     ("Passing", ret true)] [] [])
             "Exiting" exits
             [("Crashing", raise (Exn false "boom")); ("Passing", ret true)]
             []); reflexivity.
Defined.

(** [check_dependencies] returns when every failing import is one it
    handles. *)
Lemma check_dependencies_returns w :
  (forall name, name ∈ dependency_names -> handled_import w name) ->
  exists ok, fst (Demo.check_dependencies w []) = Return ok.
Proof.
  intros Hh.
  pose proof (Hh "pandas" ltac:(cbn; repeat first [apply list_elem_of_here|apply list_elem_of_further])) as H0.
  pose proof (Hh "sqlite3" ltac:(cbn; repeat first [apply list_elem_of_here|apply list_elem_of_further])) as H1.
  pose proof (Hh "streamlit" ltac:(cbn; repeat first [apply list_elem_of_here|apply list_elem_of_further])) as H2.
  unfold Demo.check_dependencies, bind.
  rewrite import_or_record_runs.
  destruct (Demo.import_ w "pandas") as [[]|e0] eqn:E0;
    [|rewrite (H0 e0 E0)];
    rewrite import_or_record_runs;
    (destruct (Demo.import_ w "sqlite3") as [[]|e1] eqn:E1;
     [|rewrite (H1 e1 E1)]);
    rewrite import_or_record_runs;
    (destruct (Demo.import_ w "streamlit") as [[]|e2] eqn:E2;
     [|rewrite (H2 e2 E2)]);
    cbn; eauto.
Qed.

(** X9: when the imports fail with [ImportError] only, and the components
    either return or raise instances of [Exception] (all a [Demo.world]
    holds), the script runs to its end: the demo returns a boolean, and
    the script prints the completion line and then the advice that goes
    with that boolean. *)
Theorem script_completes
    (format_comma_2f : Q -> string) (w : Demo.world) (c : Demo.console) :
  (forall name, name ∈ dependency_names -> handled_import w name) ->
  exists success,
    fst (Demo.run_comprehensive_demo format_comma_2f w c) = Return success
    /\ DemoMain.script format_comma_2f w c
       = (Return tt,
          snd (Demo.run_comprehensive_demo format_comma_2f w c)
          ++ [Demo.Printed (nl +:+ "🎉 Demo session completed!");
              Demo.Printed
                (if success
                 then "For questions or issues, please check the README.md file."
                 else "Please resolve the issues above and try again.")]).
Proof.
  intros Hh. destruct (check_dependencies_returns w Hh) as [ok Hok].
  destruct (run_comprehensive_demo_cases format_comma_2f w c)
    as (r & out & Hrun & Hcases).
  assert (exists success, r = Return success) as [success ->].
  { rewrite Hok in Hcases. destruct ok; [|destruct Hcases; eauto].
    pose proof (check_data_files_reports_every_missing_file w []) as Hf.
    cbv zeta in Hf. rewrite Hf in Hcases.
    destruct (List.filter _ Demo.required_files); cbn [fst] in Hcases.
    - destruct Hcases as (b1 & b2 & b3 & b4 & _ & _ & _ & _ & -> & _).
      eauto.
    - destruct Hcases; eauto. }
  exists success. rewrite Hrun. split; [done|].
  unfold DemoMain.script, bind at 1. rewrite Hrun. cbn [fst snd].
  unfold bind, Demo.print, modify.
  destruct success; cbn; by rewrite <- app_assoc.
Qed.

(** X9 on [broken_world], where only the RAG test passes. *)
Lemma script_completes_witness :
  fst (DemoMain.script (fun _ => "0.00") broken_world []) = Return tt.
Proof.
  destruct (script_completes (fun _ => "0.00") broken_world [])
    as (success & _ & ->); [|reflexivity].
  intros name _ e. discriminate.
Defined.

(** ** frontend/app.py: further properties *)

(** X11: with nothing cached, [initialize_bot] returns a bot and no error
    exactly when both imports succeed, [create_tariff_bot] returns the bot
    and, if the database file is not there yet, [setup_database] returns:
    what [setup_database] returns is not looked at, so a setup that
    reports failure does not stop the initialisation. *)
Theorem initialize_bot_succeeds_iff
    (w : App.world) (m : option (list App.message)) (p : list App.element)
    (bot : App.TariffBot) :
  fst (App.initialize_bot w (App.Session m None p)) = Return (Some bot, None)
  <->
    App.agent_real_llm_import w = Ok tt
    /\ App.database_import w = Ok tt
    /\ ("data/hts_data.db" ∈ App.files w
        \/ exists reported, App.setup_database w = Ok reported)
    /\ App.create_tariff_bot w = Ok bot.
Proof.
  destruct w as [env fs ia id sd ct].
  unfold App.initialize_bot, App.initialize_bot_body, try_except,
    try_except_when, bind, call, get.
  cbn [App.agent_real_llm_import App.database_import App.setup_database
       App.create_tariff_bot App.files App.messages App.bot_cache App.page].
  destruct ia as [[]|e1]; cbn [ret raise fst];
    [|split; [discriminate|by intros [? _]]].
  destruct id as [[]|e2]; cbn [ret raise fst];
    [|split; [discriminate|by intros (_ & ? & _)]].
  case_bool_decide as Hf; cbn [negb].
  - cbn [ret raise App.render modify App.messages App.bot_cache App.page fst].
    destruct ct as [b|e4]; cbn [ret raise fst].
    + split.
      * intros [= ->]. eauto.
      * by intros (_ & _ & _ & [= ->]).
    + split; [discriminate|]. by intros (_ & _ & _ & ?).
  - destruct sd as [reported|e3];
      cbn [ret raise App.render modify App.messages App.bot_cache App.page
           fst].
    + destruct ct as [b|e4]; cbn [ret raise fst].
      * split.
        -- intros [= ->]. eauto 6.
        -- by intros (_ & _ & _ & [= ->]).
      * split; [discriminate|]. by intros (_ & _ & _ & ?).
    + split; [discriminate|].
      intros (_ & _ & [?|[? ?]] & _); [done|discriminate].
Qed.

(** X12: once [main] has stopped on an initialisation error, every later
    run stops as well, whatever the installation has become and whatever
    the user does, and the transcript stays as it was: the cached failure
    is never retried. *)
Theorem main_stop_is_sticky
    (setup_guide_text about_text : string) (w w' : App.world)
    (ui ui' : App.widgets) (s : App.session) (p' : list App.element) :
  fst (App.main setup_guide_text about_text w ui s) = Stopped ->
  let s1 := snd (App.main setup_guide_text about_text w ui s) in
  let s1' := App.Session (App.messages s1) (App.bot_cache s1) p' in
  App.messages s1 = App.messages s
  /\ fst (App.main setup_guide_text about_text w' ui' s1') = Stopped
  /\ App.messages (snd (App.main setup_guide_text about_text w' ui' s1'))
     = App.messages s.
Proof.
  destruct s as [m k p]. intros Hstop s1 s1'. subst s1' s1.
  destruct (main_runs setup_guide_text about_text w ui m k p)
    as (r & shown & Hr & _ & Hrun).
  destruct (main_outcome setup_guide_text about_text w ui m k p)
    as (r1 & Hr1 & Hfst & _).
  rewrite Hr in Hr1. injection Hr1 as <-.
  rewrite Hfst in Hstop.
  destruct (App.truthy (snd r)) eqn:Ht; [|discriminate].
  rewrite Hrun. cbn [snd App.messages App.bot_cache].
  split; [done|].
  destruct (main_outcome setup_guide_text about_text w' ui' m (Some r) p')
    as (r2 & Hr2 & -> & ->).
  cbn in Hr2. injection Hr2 as <-. by rewrite Ht.
Qed.

(** X12 on an installation whose bot cannot be built at first and could be
    built later. *)
Lemma main_stop_is_sticky_witness :
  fst (App.main "" ""
         (installation None (Ok echo_bot))
         (asks "What's the HTS code for donkeys?")
         (App.Session
            (App.messages
               (snd (App.main "" ""
                       (installation None
                          (Err (Exn false "No module named 'langchain'")))
                       looks fresh)))
            (App.bot_cache
               (snd (App.main "" ""
                       (installation None
                          (Err (Exn false "No module named 'langchain'")))
                       looks fresh)))
            []))
  = Stopped.
Proof.
  apply (main_stop_is_sticky "" ""
           (installation None (Err (Exn false "No module named 'langchain'")))
           (installation None (Ok echo_bot))
           looks (asks "What's the HTS code for donkeys?") fresh []).
  reflexivity.
Defined.

(** X13: only the chat page writes to the transcript.  On the sample page,
    the setup guide and the about page a run leaves it as it was, so an
    answer to a sample question is shown once and not kept. *)
Theorem only_the_chat_page_writes_the_transcript
    (setup_guide_text about_text : string) (w : App.world)
    (ui : App.widgets) (s : App.session) :
  App.selectbox ui <> "💬 Chat with TariffBot" ->
  App.messages (snd (App.main setup_guide_text about_text w ui s))
  = App.messages s.
Proof.
  intros Hmode. destruct s as [m k p].
  destruct (main_outcome setup_guide_text about_text w ui m k p)
    as (r & _ & _ & ->).
  destruct (App.truthy (snd r)); [done|].
  by destruct (String.eqb_spec (App.selectbox ui) "💬 Chat with TariffBot").
Qed.

(** X13 on a pressed sample button. *)
Lemma only_the_chat_page_writes_the_transcript_witness :
  App.messages
    (snd (App.main "" "" (installation None (Ok echo_bot))
            (clicks "sample_3") fresh))
  = None.
Proof.
  apply (only_the_chat_page_writes_the_transcript "" ""
           (installation None (Ok echo_bot)) (clicks "sample_3") fresh).
  discriminate.
Defined.

(** The transcript is shown message by message, in order. *)
Lemma display_messages_page ms m k p :
  for_each ms App.display_message (App.Session m k p)
  = (Return tt, App.Session m k (p ++ shown_transcript ms)).
Proof.
  revert p. induction ms as [|x ms IH]; intros p; cbn [for_each].
  - unfold shown_transcript. cbn. by rewrite app_nil_r.
  - unfold bind at 1, App.display_message, bind at 1.
    rewrite render_renders.
    assert (forall q,
              (if String.eqb (App.role x) "assistant"
               then App.render (App.st_markdown
                                  (App.response_box (App.content x)))
               else App.render (App.st_markdown (App.content x)))
                (App.Session m k q)
              = (Return tt,
                 App.Session m k
                   (q ++ [App.st_markdown
                            (if String.eqb (App.role x) "assistant"
                             then App.response_box (App.content x)
                             else App.content x)]))) as ->
      by (intros q; by destruct (String.eqb (App.role x) "assistant")).
    rewrite IH. unfold shown_transcript. cbn [flat_map shown_message].
    by rewrite <- !app_assoc.
Qed.

(** The page and the transcript after a run of the chat page. *)
Lemma chat_interface_page bot has_openai ui m k p :
  App.chat_interface bot has_openai ui (App.Session m k p)
  = (Return tt,
     App.Session
       (Some (default [] m ++
              if App.truthy (App.chat_input ui)
              then exchange bot (default "" (App.chat_input ui))
              else []))
       k
       (p ++ chat_head has_openai ++ shown_transcript (default [] m)
        ++ [chat_box]
        ++ if App.truthy (App.chat_input ui) then
             [App.st_chat_message "user";
              App.st_markdown (default "" (App.chat_input ui));
              App.st_chat_message "assistant";
              App.st_spinner (if has_openai
                              then "Generating response with LLM..."
                              else "Processing with text extraction...");
              App.st_markdown
                (App.response_box
                   (reply chat_error_prefix bot
                      (default "" (App.chat_input ui))))]
           else [])).
Proof.
  unfold App.chat_interface.
  unfold bind at 1. rewrite render_renders.
  unfold bind at 1.
  replace (if has_openai then App.render _ else App.render _)
    with (App.render (chat_notice has_openai)) by (by destruct has_openai).
  rewrite render_renders.
  unfold bind at 1. rewrite render_renders.
  unfold bind at 1, get at 1. cbn [App.messages App.bot_cache App.page].
  unfold bind at 1.
  set (p0 := ((p ++ _) ++ _) ++ _).
  assert ((match m with
           | Some _ => ret ()
           | None =>
               modify (fun s => App.Session (Some [])
                                  (App.bot_cache s) (App.page s))
           end) (App.Session m k p0)
          = (Return tt, App.Session (Some (default [] m)) k p0)) as ->
    by (by destruct m).
  unfold bind at 1, get at 1. cbn [App.messages default from_option id].
  unfold bind at 1. rewrite display_messages_page.
  unfold bind at 1. rewrite render_renders.
  assert (((p0 ++ shown_transcript (default [] m)) ++ [chat_box])
          = p ++ chat_head has_openai ++ shown_transcript (default [] m)
            ++ [chat_box]) as Hp
    by (subst p0; unfold chat_head; by rewrite <- !app_assoc).
  unfold chat_box in Hp at 1. rewrite Hp. clear Hp.
  destruct (App.chat_input ui) as [prompt|];
    cbn [App.truthy default from_option id].
  2:{ unfold ret. by rewrite !app_nil_r. }
  destruct (negb (String.eqb prompt "")).
  2:{ unfold ret. by rewrite !app_nil_r. }
  unfold bind at 1, App.messages_append at 1.
  cbn [App.messages App.bot_cache App.page].
  unfold bind at 1. rewrite render_renders.
  unfold bind at 1. rewrite render_renders.
  unfold bind at 1. rewrite render_renders.
  unfold bind at 1. rewrite render_renders.
  unfold bind at 1, try_except, try_except_when, call, reply, exchange.
  unfold reply.
  destruct (App.bot_query bot prompt) as [r|e]; cbn [ret raise];
    unfold bind at 1; rewrite render_renders;
    unfold App.messages_append; cbn [App.messages App.bot_cache App.page];
    f_equal; f_equal; rewrite <- !app_assoc; reflexivity.
Qed.

(** X14: the chat page shows the transcript in order, a user message as it
    is and an assistant message in the response box, below the head of
    the page and above the input; a submitted prompt and its answer are
    shown after them.  What a run appends is what the next run shows: the
    old messages followed by the prompt and the answer, nothing lost or
    reordered. *)
Theorem chat_history_round_trip
    (bot bot' : option App.TariffBot) (has_openai has_openai' : bool)
    (ui ui' : App.widgets) (s : App.session) (prompt : string) :
  App.chat_input ui = Some prompt ->
  prompt <> "" ->
  App.chat_input ui' = None ->
  let old := default [] (App.messages s) in
  let answer := reply chat_error_prefix bot prompt in
  let s1 := snd (App.chat_interface bot has_openai ui s) in
  App.page s1
  = App.page s ++ chat_head has_openai ++ shown_transcript old
    ++ [chat_box; App.st_chat_message "user"; App.st_markdown prompt;
        App.st_chat_message "assistant";
        App.st_spinner (if has_openai
                        then "Generating response with LLM..."
                        else "Processing with text extraction...");
        App.st_markdown (App.response_box answer)]
  /\ App.chat_interface bot' has_openai' ui'
       (App.Session (App.messages s1) (App.bot_cache s1) [])
     = (Return tt,
        App.Session (App.messages s1) (App.bot_cache s1)
          (chat_head has_openai'
           ++ shown_transcript
                (old ++ [App.Message "user" prompt;
                         App.Message "assistant" answer])
           ++ [chat_box])).
Proof.
  intros Hp Hne Hq old answer s1. subst s1 answer old.
  destruct s as [m k p]. rewrite !chat_interface_page. rewrite Hp, Hq.
  cbn [App.truthy default from_option id snd
       App.messages App.bot_cache App.page].
  destruct (String.eqb_spec prompt ""); [done|]. cbn [negb].
  split; [reflexivity|]. unfold exchange. by rewrite !app_nil_r.
Qed.

(** X14 on a first prompt. *)
Lemma chat_history_round_trip_witness :
  App.page
    (snd (App.chat_interface (Some echo_bot) false looks
            (App.Session
               (App.messages
                  (snd (App.chat_interface (Some echo_bot) false
                          (asks "Hello") fresh)))
               (App.bot_cache
                  (snd (App.chat_interface (Some echo_bot) false
                          (asks "Hello") fresh)))
               [])))
  = chat_head false
    ++ [App.st_chat_message "user"; App.st_markdown "Hello";
        App.st_chat_message "assistant";
        App.st_markdown (App.response_box "You asked: Hello")]
    ++ [chat_box].
Proof.
  destruct (chat_history_round_trip (Some echo_bot) (Some echo_bot)
              false false (asks "Hello") looks fresh "Hello"
              eq_refl ltac:(discriminate) eq_refl) as [_ ->].
  reflexivity.
Defined.

(** X15: a run of the chat page without a prompt, or with an empty one,
    does not call the bot and appends nothing: it only makes sure the
    transcript exists. *)
Theorem empty_prompt_is_ignored
    (bot bot' : option App.TariffBot) (has_openai : bool)
    (ui : App.widgets) (s : App.session) :
  App.chat_input ui = None \/ App.chat_input ui = Some "" ->
  App.chat_interface bot has_openai ui s
  = App.chat_interface bot' has_openai ui s
  /\ App.messages (snd (App.chat_interface bot has_openai ui s))
     = Some (default [] (App.messages s)).
Proof.
  intros Hp. destruct s as [m k p]. rewrite !chat_interface_page.
  assert (App.truthy (App.chat_input ui) = false) as ->
    by (by destruct Hp as [->| ->]).
  cbn [snd App.messages]. by rewrite app_nil_r.
Qed.

(** X15 on an empty prompt sent to a bot that would raise. *)
Lemma empty_prompt_is_ignored_witness :
  App.messages
    (snd (App.chat_interface (Some failing_bot) true (asks "") fresh))
  = Some [].
Proof.
  apply (empty_prompt_is_ignored (Some failing_bot) None true (asks "")
           fresh).
  by right.
Defined.

(** The same block, for two bots that agree on its question. *)
Lemma sample_block_ext bot bot' has_openai ui i item s :
  (App.button ui ("sample_" +:+ pretty i) = true ->
   App.bot_query bot (App.question item)
   = App.bot_query bot' (App.question item)) ->
  App.sample_block bot has_openai ui i item s
  = App.sample_block bot' has_openai ui i item s.
Proof.
  intros Hb. unfold App.sample_block.
  destruct (App.button ui ("sample_" +:+ pretty i)); [|done].
  by rewrite Hb.
Qed.

Lemma for_each_ext {S A} (xs : list A) (f g : A -> M (S:=S) unit) s :
  (forall x s, x ∈ xs -> f x s = g x s) ->
  for_each xs f s = for_each xs g s.
Proof.
  revert s. induction xs as [|x xs IH]; intros s Hfg; [done|].
  cbn [for_each]. unfold bind.
  rewrite Hfg by apply list_elem_of_here.
  destruct (g x s) as [[[]|e|] s']; [|done..].
  apply IH. intros y s0 Hy. apply Hfg. by apply list_elem_of_further.
Qed.

(** X16: the sample page asks the bot only the questions whose button is
    pressed: two bots that agree on those give the same page, and with no
    button pressed the bot is not called at all.  The page never touches
    the transcript or the cached bot. *)
Theorem sample_page_asks_pressed_questions_only
    (bot bot' : option App.TariffBot) (has_openai : bool)
    (ui : App.widgets) (s : App.session) :
  (forall i item,
     App.sample_questions !! i = Some item ->
     App.button ui ("sample_" +:+ pretty i) = true ->
     App.bot_query bot (App.question item)
     = App.bot_query bot' (App.question item)) ->
  App.sample_questions_interface bot has_openai ui s
  = App.sample_questions_interface bot' has_openai ui s
  /\ App.messages (snd (App.sample_questions_interface bot has_openai ui s))
     = App.messages s
  /\ App.bot_cache (snd (App.sample_questions_interface bot has_openai ui s))
     = App.bot_cache s.
Proof.
  intros Hagree. split.
  - destruct s as [m k p].
    unfold App.sample_questions_interface, bind. rewrite !render_renders.
    destruct has_openai; rewrite !render_renders; apply for_each_ext.
    all: intros [i item] s0 Hel.
    all: apply elem_of_lookup_imap_1 in Hel as (j & y & [= -> ->] & Hj).
    all: apply sample_block_ext; by apply Hagree.
  - destruct (sample_questions_interface_runs bot has_openai ui s)
      as (more & -> & _). done.
Qed.

(** X16 with no button pressed: a bot that raises and one that answers
    give the same page. *)
Lemma sample_page_asks_pressed_questions_only_witness :
  App.sample_questions_interface (Some failing_bot) true looks fresh
  = App.sample_questions_interface (Some echo_bot) true looks fresh.
Proof.
  apply (sample_page_asks_pressed_questions_only (Some failing_bot)
           (Some echo_bot) true looks fresh).
  intros i item _ Hb. discriminate.
Defined.

(** X17: when [initialize_bot] reports an error text that is not empty,
    [main] shows that text in an error box and stops there: the error box
    is the last thing on the page, the transcript is as it was, and the
    failure is left in the cache. *)
Theorem initialisation_error_stops_main
    (setup_guide_text about_text : string) (w : App.world)
    (ui : App.widgets) (s : App.session) (msg : string) :
  fst (App.initialize_bot w s) = Return (None, Some msg) ->
  msg <> "" ->
  exists shown,
    App.main setup_guide_text about_text w ui s
    = (Stopped,
       App.Session (App.messages s) (Some (None, Some msg))
         (App.page s ++ shown
          ++ [App.st_error ("Failed to initialize TariffBot: " +:+ msg)])).
Proof.
  intros Hi Hm. destruct s as [m k p].
  destruct (main_runs setup_guide_text about_text w ui m k p)
    as (r & shown & Hr & _ & ->).
  rewrite Hi in Hr. injection Hr as <-. cbn [fst snd App.truthy].
  destruct (String.eqb_spec msg ""); [done|]. cbn [negb]. by exists shown.
Qed.

(** X17 on an installation whose agent module lacks a dependency. *)
Lemma initialisation_error_stops_main_witness :
  fst (App.main "" ""
         (installation None (Err (Exn false "No module named 'langchain'")))
         (asks "What's the HTS code for donkeys?") fresh)
  = Stopped.
Proof.
  destruct (initialisation_error_stops_main "" ""
              (installation None
                 (Err (Exn false "No module named 'langchain'")))
              (asks "What's the HTS code for donkeys?") fresh
              "No module named 'langchain'" eq_refl ltac:(discriminate))
    as [shown ->].
  reflexivity.
Defined.

(** X18: the error [initialize_bot] reports is the text of the first call
    that raises, in the order: import of the agent, import of the
    database module, [setup_database] when the database file is missing,
    [create_tariff_bot].  Nothing after that call is attempted, and a
    database file already there spares the setup altogether. *)
Theorem initialize_bot_reports_first_failure
    (w : App.world) (m : option (list App.message)) (p : list App.element)
    (e : exn) :
  let result := fst (App.initialize_bot w (App.Session m None p)) in
  (App.agent_real_llm_import w = Err e ->
   result = Return (None, Some (exn_str e)))
  /\ (App.agent_real_llm_import w = Ok tt ->
      App.database_import w = Err e ->
      result = Return (None, Some (exn_str e)))
  /\ (App.agent_real_llm_import w = Ok tt ->
      App.database_import w = Ok tt ->
      "data/hts_data.db" ∉ App.files w ->
      App.setup_database w = Err e ->
      result = Return (None, Some (exn_str e)))
  /\ (App.agent_real_llm_import w = Ok tt ->
      App.database_import w = Ok tt ->
      ("data/hts_data.db" ∈ App.files w
       \/ exists reported, App.setup_database w = Ok reported) ->
      App.create_tariff_bot w = Err e ->
      result = Return (None, Some (exn_str e))).
Proof.
  intros result. subst result. destruct w as [env fs ia id sd ct].
  unfold App.initialize_bot, App.initialize_bot_body, try_except,
    try_except_when, bind, call, get.
  cbn [App.agent_real_llm_import App.database_import App.setup_database
       App.create_tariff_bot App.files App.messages App.bot_cache App.page].
  split; [by intros ->|]. split; [by intros -> ->|]. split.
  - intros -> -> Hf ->. cbn [ret raise]. by case_bool_decide.
  - intros -> -> Hs ->. cbn [ret raise].
    case_bool_decide as Hf; cbn [negb]; [done|].
    destruct Hs as [?|[reported ->]]; done.
Qed.

(** X18 on a first use whose database cannot be set up. *)
Lemma initialize_bot_reports_first_failure_witness :
  fst (App.initialize_bot
         (first_use (Err (Exn false "data/htsdata.csv not found"))
            (Ok echo_bot))
         fresh)
  = Return (None, Some "data/htsdata.csv not found").
Proof.
  apply (proj1 (proj2 (proj2 (initialize_bot_reports_first_failure
           (first_use (Err (Exn false "data/htsdata.csv not found"))
              (Ok echo_bot))
           None [] (Exn false "data/htsdata.csv not found"))))).
  - reflexivity.
  - reflexivity.
  - apply not_elem_of_empty.
  - reflexivity.
Defined.

(** A slice is never longer than asked for, and is the whole text when
    the text is short enough. *)
Lemma slice_to_length n s : len (slice_to n s) <= n.
Proof.
  unfold slice_to, len. revert s.
  induction n as [|n IH]; intros [|a s]; cbn; try lia.
  specialize (IH s). lia.
Qed.

Lemma slice_to_short n s : len s <= n -> slice_to n s = s.
Proof.
  unfold slice_to, len. revert s.
  induction n as [|n IH]; intros [|a s]; cbn; try done; try lia.
  intros H. f_equal. apply IH. lia.
Qed.

(** A slice is a prefix of the text, of the length asked for or of the
    whole text when that is shorter. *)
Lemma slice_to_prefix n s :
  exists rest, s = slice_to n s +:+ rest.
Proof.
  unfold slice_to. revert s.
  induction n as [|n IH]; intros s.
  - exists s. by destruct s.
  - destruct s as [|a s]; [by exists ""|].
    destruct (IH s) as [rest Hrest]. exists rest.
    change (String a s = String a (String.substring 0 n s +:+ rest)).
    by rewrite <- Hrest.
Qed.

Lemma slice_to_min n s : len (slice_to n s) = Nat.min n (len s).
Proof.
  unfold slice_to, len. revert s.
  induction n as [|n IH]; intros [|a s]; cbn; try done.
  by rewrite IH.
Qed.

(** X19: when the search finds records whose fields are texts,
    [test_database] logs how many and then the first one only, with the
    first 50 characters of its description (a prefix of the description,
    50 characters long or all of it when it is shorter), and passes. *)
Theorem test_database_logs_the_first_record
    (w : Demo.world) (c : Demo.console) (first : dict) (others : list dict)
    (hts_number description : string) :
  Demo.database_import (Demo.database w) = Ok tt ->
  Demo.setup_database (Demo.database w) = Ok true ->
  Demo.HTSDatabase (Demo.database w) = Ok tt ->
  Demo.HTSDataProcessor (Demo.database w) = Ok tt ->
  Demo.search_hts_codes (Demo.database w) "asses" 3 = Ok (first :: others) ->
  first !! "hts_number" = Some hts_number ->
  first !! "description" = Some description ->
  Demo.close_connection (Demo.database w) = Ok tt ->
  exists shown rest,
    Demo.test_database w c
    = (Return true,
       c ++ [Demo.Logged Demo.INFO "📊 Testing database...";
             Demo.Logged Demo.INFO
               ("✅ Database search working: found "
                +:+ pretty (S (length others)) +:+ " results for 'asses'");
             Demo.Logged Demo.INFO
               ("   Found: " +:+ hts_number +:+ " - " +:+ shown +:+ "...")])
    /\ description = shown +:+ rest
    /\ len shown = Nat.min 50 (len description)
    /\ (len description <= 50 -> shown = description).
Proof.
  intros Hi Hs Hd Hp Hr Hh Hdesc Hc.
  destruct (slice_to_prefix 50 description) as [rest Hrest].
  exists (slice_to 50 description), rest.
  split; [|split; [exact Hrest|split;
                   [apply slice_to_min|apply slice_to_short]]].
  unfold Demo.test_database, try_except, try_except_when,
    Demo.test_database_body, bind, call.
  rewrite Hi. cbn -[slice_to pretty]. rewrite Hs. cbn -[slice_to pretty].
  rewrite Hd. cbn -[slice_to pretty]. rewrite Hp. cbn -[slice_to pretty].
  rewrite Hr. cbn -[slice_to pretty]. unfold getitem. rewrite Hh, Hdesc.
  cbn -[slice_to pretty]. rewrite Hc. cbn -[slice_to pretty].
  by rewrite <- !app_assoc.
Qed.

(** X19 on a catalog whose first record has a description of 60
    characters. *)
Lemma test_database_logs_the_first_record_witness :
  exists shown rest,
    Demo.test_database asses_world []
    = (Return true,
       [] ++ [Demo.Logged Demo.INFO "📊 Testing database...";
              Demo.Logged Demo.INFO
                ("✅ Database search working: found "
                 +:+ pretty 2 +:+ " results for 'asses'");
              Demo.Logged Demo.INFO
                ("   Found: " +:+ "0101.30.00.00" +:+ " - " +:+ shown
                 +:+ "...")])
    /\ asses_description = shown +:+ rest
    /\ len shown = Nat.min 50 (len asses_description)
    /\ (len asses_description <= 50 -> shown = asses_description).
Proof.
  apply (test_database_logs_the_first_record asses_world []
           {["hts_number" := "0101.30.00.00";
             "description" := asses_description]}
           [{["hts_number" := "0101.90.40.00"]}]
           "0101.30.00.00" asses_description); reflexivity.
Defined.

(** With both checks passed, the demo runs the four tests and hands their
    results, under their names and in their order, to the summary. *)
Lemma run_reaches_summary fmt w c :
  fst (Demo.check_dependencies w c) = Return true ->
  fst (Demo.check_data_files w c) = Return true ->
  exists b1 b2 b3 b4 c4,
    fst (Demo.test_database w c) = Return b1
    /\ fst (Demo.test_rag_system w c) = Return b2
    /\ fst (Demo.test_tariff_calculator fmt w c) = Return b3
    /\ fst (Demo.test_agent w c) = Return b4
    /\ Demo.run_comprehensive_demo fmt w c
       = Demo.summarize
           [("Database", b1); ("RAG System", b2);
            ("Tariff Calculator", b3); ("TariffBot Agent", b4)] c4.
Proof.
  rewrite (writes_only_result _ c [] (writes_only_check_dependencies w)).
  rewrite (writes_only_result _ c [] (writes_only_check_data_files w)).
  rewrite (writes_only_result _ c [] (writes_only_test_database w)).
  rewrite (writes_only_result _ c [] (writes_only_test_rag_system w)).
  rewrite (writes_only_result _ c []
             (writes_only_test_tariff_calculator fmt w)).
  rewrite (writes_only_result _ c [] (writes_only_test_agent w)).
  intros Hd Hf. unfold Demo.run_comprehensive_demo.
  unfold bind at 1. cbn [Demo.print modify].
  unfold bind at 1. cbn [Demo.print modify].
  rewrite bind_writes_only by apply writes_only_check_dependencies.
  rewrite Hd. cbn [negb].
  rewrite bind_writes_only by apply writes_only_check_data_files.
  rewrite Hf. cbn [negb].
  match goal with
  | |- context [bind _ _ ?c0] =>
      destruct (test_database_runs w c0) as (b1 & R1 & E1);
      destruct (test_rag_system_runs w
                  (c0 ++ snd (Demo.test_database w [])))
        as (b2 & R2 & E2);
      destruct (test_tariff_calculator_runs fmt w
                  ((c0 ++ snd (Demo.test_database w []))
                   ++ snd (Demo.test_rag_system w [])))
        as (b3 & R3 & E3);
      destruct (test_agent_runs w
                  (((c0 ++ snd (Demo.test_database w []))
                    ++ snd (Demo.test_rag_system w []))
                   ++ snd (Demo.test_tariff_calculator fmt w [])))
        as (b4 & R4 & E4)
  end.
  exists b1, b2, b3, b4. eexists. repeat (split; [done|]).
  unfold bind at 1, Demo.tests.
  rewrite (run_tests_cons _ _ _ _ _ _ _ E1).
  rewrite (run_tests_cons _ _ _ _ _ _ _ E2).
  rewrite (run_tests_cons _ _ _ _ _ _ _ E3).
  rewrite (run_tests_cons _ _ _ _ _ _ _ E4).
  cbn [Demo.run_tests ret setitem String.eqb Ascii.eqb Bool.eqb].
  reflexivity.
Qed.

(** X20: after both checks have passed, what the demo returns agrees with
    the verdict it prints last: it returns [False] exactly when its last
    line says that all tests failed, and [True] exactly when its last line
    is the command that starts the web interface.  It returns [True] as
    soon as one component test does. *)
Theorem demo_verdict_matches_result
    (format_comma_2f : Q -> string) (w : Demo.world) (c : Demo.console) :
  fst (Demo.check_dependencies w c) = Return true ->
  fst (Demo.check_data_files w c) = Return true ->
  exists success front last_line,
    Demo.run_comprehensive_demo format_comma_2f w c
    = (Return success, front ++ [Demo.Printed last_line])
    /\ (success = false <->
        last_line
        = nl +:+ "❌ All tests failed. Please check the error messages above.")
    /\ (success = true <-> last_line = "streamlit run frontend/app.py").
Proof.
  intros Hd Hf.
  destruct (run_reaches_summary format_comma_2f w c Hd Hf)
    as (b1 & b2 & b3 & b4 & c4 & _ & _ & _ & _ & ->).
  destruct b1, b2, b3, b4;
    (eexists _, _, _; split; [vm_compute; reflexivity|];
     split; split; intros H; try reflexivity; try discriminate H;
     vm_compute in H; discriminate H).
Qed.

(** X20 on [broken_world], where only the RAG test passes. *)
Lemma demo_verdict_matches_result_witness :
  exists success front last_line,
    Demo.run_comprehensive_demo (fun _ => "0.00") broken_world []
    = (Return success, front ++ [Demo.Printed last_line])
    /\ (success = false <->
        last_line
        = nl +:+ "❌ All tests failed. Please check the error messages above.")
    /\ (success = true <-> last_line = "streamlit run frontend/app.py").
Proof.
  apply (demo_verdict_matches_result (fun _ => "0.00") broken_world []);
    reflexivity.
Defined.
